(** * meta-kagent: manifest validation and diff / apply reconciliation

    A shallow embedding of the validation and reconciliation core of the
    kagent meta-agent MCP server:

    - [unstructured]: the generic attribute tree of a manifest and the
      nested-field accessors of [k8s.io/apimachinery] the code calls;
    - [kubernetes]: [internal/kubernetes/client.go] ([Apply],
      [GetCurrentState], [GetModelConfig], [gvrFromKind]) over an
      abstract dynamic client;
    - [tools]: the [validate_manifest] and [diff_manifest] handlers.

    The handlers receive the manifest as YAML text and decode it with
    [yaml.Unmarshal] before doing anything else; the embedding starts from
    the decoded tree.  [GetCurrentState] prints the stripped object as YAML
    and [handleDiffManifest] decodes that text again; printing followed by
    decoding returns the same tree, so the text hop is elided. *)

From Stdlib Require Import ZArith.
From Stdlib Require Qcanon.
From stdpp Require Import gmap strings list fin_maps numbers.

#[local] Set Warnings "-register-all".

(** ** The attribute tree

    What [encoding/json] decodes into [interface{}]: [nil], [bool],
    [float64], [string], [[]interface{}] and [map[string]interface{}].
    A finite [float64] is a rational and two of them are [==] exactly when
    the rationals are equal, which is all the code ever asks of a number. *)

Inductive value : Type :=
  | VNull
  | VBool (b : bool)
  | VNum (q : Qcanon.Qc)
  | VStr (s : string)
  | VList (l : list value)
  | VMap (m : gmap string value).

(** [map[string]interface{}], the [Object] field of
    [unstructured.Unstructured].  A Go map has no key order and no
    duplicate keys; a [nil] map reads like the empty one. *)
Abbreviation Object := (gmap string value).

Fixpoint value_eq_dec (x y : value) {struct x} : Decision (x = y).
Proof.
  refine (match x, y with
    | VNull, VNull => left _
    | VBool a, VBool b => cast_if (decide (a = b))
    | VNum a, VNum b => cast_if (decide (a = b))
    | VStr a, VStr b => cast_if (decide (a = b))
    | VList a, VList b =>
        cast_if (@decide (a = b) (@list_eq_dec _ value_eq_dec a b))
    | VMap a, VMap b =>
        cast_if (@decide (a = b) (@gmap_eq_dec _ _ _ _ value_eq_dec a b))
    | _, _ => right _
    end); congruence.
Defined.

#[global] Instance value_eqdec : EqDecision value := value_eq_dec.

(** ** Errors and results *)

(** [metav1.StatusReason] of an API error. *)
Inductive StatusReason : Type :=
  | NotFound
  | AlreadyExists
  | Conflict
  | Forbidden
  | Invalid
  | ServerTimeout
  | InternalError.

(** A Go [error]: an API status error of the dynamic client, or
    [fmt.Errorf] with its message and, for [%w], the wrapped cause. *)
Inductive error : Type :=
  | APIStatus (reason : StatusReason)
  | Errorf (msg : string) (cause : option error).

(** A Go [(T, error)] return. *)
Inductive Result (A : Type) : Type :=
  | OK (a : A)
  | Err (e : error).

Arguments OK {A} a.
Arguments Err {A} e.

(** ** k8s.io/apimachinery/pkg/apis/meta/v1/unstructured *)

Module unstructured.

(** [NestedFieldNoCopy]: walk [fields] from [val]; [None] is
    [found = false], whether a key is missing or a non-map is in the
    way (the error of the latter case is dropped by every caller). *)
Fixpoint NestedFieldNoCopy (val : value) (fields : list string)
  : option value :=
  match fields with
  | [] => Some val
  | field :: rest =>
      match val with
      | VMap m =>
          match m !! field with
          | Some v => NestedFieldNoCopy v rest
          | None => None
          end
      | _ => None
      end
  end.

(** [NestedString]: the string and [found]; a value that is not a
    string gives [("", false)]. *)
Definition NestedString (obj : Object) (fields : list string)
  : string * bool :=
  match NestedFieldNoCopy (VMap obj) fields with
  | Some (VStr s) => (s, true)
  | _ => ("", false)
  end.

Definition getNestedString (obj : Object) (fields : list string) : string :=
  let '(val, found) := NestedString obj fields in
  if found then val else "".

(** [RemoveNestedField]: descend through maps, give up silently at the
    first field that is not a map, delete the last key. *)
Fixpoint RemoveNestedField (obj : Object) (fields : list string) : Object :=
  match fields with
  | [] => obj
  | [last] => delete last obj
  | field :: rest =>
      match obj !! field with
      | Some (VMap x) => <[field := VMap (RemoveNestedField x rest)]> obj
      | _ => obj
      end
  end.

(** [SetNestedField]: descend through maps, creating the missing ones;
    a field that holds a non-map is an error and leaves the object as
    it is (the methods below ignore the error). *)
Fixpoint SetNestedField (obj : Object) (v : value) (fields : list string)
  : Object :=
  match fields with
  | [] => obj
  | [last] => <[last := v]> obj
  | field :: rest =>
      match obj !! field with
      | Some (VMap valMap) =>
          <[field := VMap (SetNestedField valMap v rest)]> obj
      | Some _ => obj
      | None => <[field := VMap (SetNestedField ∅ v rest)]> obj
      end
  end.

Definition GetAPIVersion (u : Object) : string :=
  getNestedString u ["apiVersion"].

Definition GetKind (u : Object) : string :=
  getNestedString u ["kind"].

Definition GetName (u : Object) : string :=
  getNestedString u ["metadata"; "name"].

Definition GetNamespace (u : Object) : string :=
  getNestedString u ["metadata"; "namespace"].

Definition GetResourceVersion (u : Object) : string :=
  getNestedString u ["metadata"; "resourceVersion"].

Definition SetNamespace (u : Object) (namespace : string) : Object :=
  if decide (namespace = "")
  then RemoveNestedField u ["metadata"; "namespace"]
  else SetNestedField u (VStr namespace) ["metadata"; "namespace"].

Definition SetResourceVersion (u : Object) (resourceVersion : string)
  : Object :=
  if decide (resourceVersion = "")
  then RemoveNestedField u ["metadata"; "resourceVersion"]
  else SetNestedField u (VStr resourceVersion)
         ["metadata"; "resourceVersion"].

End unstructured.

(** ** pkg/types: the typed view of a ModelConfig *)

Module types.

(** [ModelConfigSpec]. *)
Record ModelConfigSpec : Type := {
  Provider : string;
  Model : string;
  APIKeySecret : string;
  APIKeySecretKey : string;
  BaseURL : string;
  OpenAI : Object;
  Anthropic : Object;
  Gemini : Object;
  Azure : Object;
  Ollama : Object
}.

(** [ModelConfig]: the inlined [TypeMeta], of [ObjectMeta] the two
    fields the repository reads, and the spec. *)
Record ModelConfig : Type := {
  APIVersion : string;
  Kind : string;
  Name : string;
  Namespace : string;
  Spec : ModelConfigSpec
}.

End types.

(** ** internal/kubernetes/client.go *)

Module kubernetes.
Import unstructured.

Record GroupVersionResource : Type := {
  Group : string;
  Version : string;
  Resource : string
}.

Definition AgentGVR : GroupVersionResource :=
  {| Group := "kagent.dev"; Version := "v1alpha2"; Resource := "agents" |}.

Definition ModelConfigGVR : GroupVersionResource :=
  {| Group := "kagent.dev"; Version := "v1alpha2";
     Resource := "modelconfigs" |}.

Definition MCPServerGVR : GroupVersionResource :=
  {| Group := "kagent.dev"; Version := "v1alpha1";
     Resource := "mcpservers" |}.

Definition RemoteMCPServerGVR : GroupVersionResource :=
  {| Group := "kagent.dev"; Version := "v1alpha2";
     Resource := "remotemcpservers" |}.

(** [metav1.DryRunAll]. *)
Definition DryRunAll : string := "All".

(** [metav1.CreateOptions] and [metav1.UpdateOptions]: the [DryRun]
    field, the only one the client sets. *)
Record CreateOptions : Type := { createDryRun : list string }.
Record UpdateOptions : Type := { updateDryRun : list string }.

(** The part of [dynamic.Interface] that [Apply], [GetCurrentState] and
    [GetModelConfig] call, [Resource(gvr).Namespace(ns)] being the first
    two arguments.  The cluster is a state [S] the calls are threaded
    through; a read leaves it as it is. *)
Class DynamicInterface (S : Type) : Type := {
  Get : GroupVersionResource → string → string → S → Result Object;
  Create : GroupVersionResource → string → Object → CreateOptions →
           S → Result Object * S;
  Update : GroupVersionResource → string → Object → UpdateOptions →
           S → Result Object * S
}.

(** [encoding/json]: [json.Marshal] of the tree followed by
    [json.Unmarshal] into [types.ModelConfig]; it fails when the tree
    holds a value of a JSON type the struct field does not accept. *)
Class JSONDecoder : Type := {
  unmarshalModelConfig : Object → Result types.ModelConfig
}.

(** [Client]; its [dynamicClient] is the [DynamicInterface] instance
    together with the threaded state. *)
Record Client : Type := { namespace : string }.

(** [ApplyResult]. *)
Record ApplyResult : Type := {
  Action : string;
  Kind : string;
  Name : string;
  Namespace : string;
  DryRun : bool
}.

Definition gvrFromKind (kind : string) : Result GroupVersionResource :=
  if decide (kind = "Agent") then OK AgentGVR
  else if decide (kind = "ModelConfig") then OK ModelConfigGVR
  else if decide (kind = "MCPServer") then OK MCPServerGVR
  else if decide (kind = "RemoteMCPServer") then OK RemoteMCPServerGVR
  else Err (Errorf ("unknown kind: " +:+ kind) None).

Definition gvrFromObject (obj : Object) : Result GroupVersionResource :=
  gvrFromKind (GetKind obj).

(** The server-managed fields [GetCurrentState] removes from the
    fetched object, in the order of the source. *)
Definition stripServerManaged (obj : Object) : Object :=
  let obj := delete "status" obj in
  let obj := RemoveNestedField obj ["metadata"; "creationTimestamp"] in
  let obj := RemoveNestedField obj ["metadata"; "generation"] in
  let obj := RemoveNestedField obj ["metadata"; "resourceVersion"] in
  let obj := RemoveNestedField obj ["metadata"; "uid"] in
  RemoveNestedField obj ["metadata"; "managedFields"].

Section WithCluster.
Context {S : Type} {dyn : DynamicInterface S} {json : JSONDecoder}.

Definition unstructuredToModelConfig (obj : Object)
  : Result types.ModelConfig :=
  match unmarshalModelConfig obj with
  | Err e => Err (Errorf "failed to unmarshal to model config" (Some e))
  | OK config => OK config
  end.

(** [GetModelConfig]: a model config of the configured namespace. *)
Definition GetModelConfig (c : Client) (name : string) (s : S)
  : Result types.ModelConfig :=
  match Get ModelConfigGVR (namespace c) name s with
  | Err e => Err (Errorf ("failed to get model config " +:+ name) (Some e))
  | OK obj => unstructuredToModelConfig obj
  end.

(** [Apply], from the decoded manifest on. *)
Definition Apply (c : Client) (manifest : Object) (dryRun : bool) (s : S)
  : Result ApplyResult * S :=
  match gvrFromObject manifest with
  | Err e => (Err e, s)
  | OK gvr =>
      (* Set namespace if not specified *)
      let obj :=
        if decide (GetNamespace manifest = "")
        then SetNamespace manifest (namespace c)
        else manifest in
      let opts :=
        {| createDryRun := if dryRun then [DryRunAll] else [] |} in
      (* Try to get existing resource *)
      match Get gvr (GetNamespace obj) (GetName obj) s with
      | OK existing =>
          (* Resource exists, update it *)
          let obj := SetResourceVersion obj (GetResourceVersion existing) in
          let updateOpts :=
            {| updateDryRun := if dryRun then [DryRunAll] else [] |} in
          let '(r, s') := Update gvr (GetNamespace obj) obj updateOpts s in
          match r with
          | Err e =>
              (Err (Errorf "failed to update resource" (Some e)), s')
          | OK _ =>
              (OK {| Action := "updated";
                     Kind := GetKind obj;
                     Name := GetName obj;
                     Namespace := GetNamespace obj;
                     DryRun := dryRun |}, s')
          end
      | Err _ =>
          (* Resource doesn't exist, create it *)
          let '(r, s') := Create gvr (GetNamespace obj) obj opts s in
          match r with
          | Err e =>
              (Err (Errorf "failed to create resource" (Some e)), s')
          | OK _ =>
              (OK {| Action := "created";
                     Kind := GetKind obj;
                     Name := GetName obj;
                     Namespace := GetNamespace obj;
                     DryRun := dryRun |}, s')
          end
      end
  end.

(** [GetCurrentState]: the current state of a resource for diffing,
    as the tree its YAML text encodes. *)
Definition GetCurrentState (c : Client) (kind name : string) (s : S)
  : Result Object :=
  match gvrFromKind kind with
  | Err e => Err e
  | OK gvr =>
      match Get gvr (namespace c) name s with
      | Err e => Err e
      | OK obj => OK (stripServerManaged obj)
      end
  end.

End WithCluster.

End kubernetes.

(** ** internal/tools: validate_manifest and diff_manifest *)

Module tools.
Import unstructured kubernetes.

(** [ValidationIssue]: a validation error or warning. *)
Record ValidationIssue : Type := {
  Severity : string;   (* "error" or "warning" *)
  Field : string;
  Message : string
}.

#[global] Instance ValidationIssue_eq_dec : EqDecision ValidationIssue.
Proof. solve_decision. Defined.

(** [ToolServer], without the MCP transport. *)
Record ToolServer : Type := { k8sClient : Client }.

(** What [handleDiffManifest] answers; all three are text results of
    the tool.  [Changes] carries the two trees [cmp.Diff] reports on in
    place of the rendered report. *)
Inductive DiffResult : Type :=
  | NewResource (kind name : string) (manifest : Object)
  | NoChanges (kind name : string)
  | Changes (kind name : string) (current proposed : Object).

(** [cmp.Diff x y] is the empty string exactly when [cmp.Equal x y]:
    same keys, equal values, recursively. *)
Definition cmpDiffEmpty (x y : Object) : bool := bool_decide (x = y).

Definition validateModelConfig (obj : Object) (strict : bool)
  : list ValidationIssue :=
  let issues := [] in
  (* Check provider *)
  let '(provider, found) := NestedString obj ["spec"; "provider"] in
  let issues :=
    if negb found || bool_decide (provider = "") then
      issues ++ [{| Severity := "error"; Field := "spec.provider";
                    Message := "spec.provider is required" |}]
    else
      let validProviders : gmap string bool :=
        list_to_map [("OpenAI", true); ("AzureOpenAI", true);
                     ("Anthropic", true); ("Gemini", true);
                     ("Ollama", true); ("Custom", true)] in
      if negb (default false (validProviders !! provider)) then
        issues ++ [{| Severity := "error"; Field := "spec.provider";
                      Message := "Invalid provider '" +:+ provider +:+
                        "'. Must be one of: OpenAI, AzureOpenAI, Anthropic, Gemini, Ollama, Custom" |}]
      else issues in
  (* Check model *)
  let '(model, found) := NestedString obj ["spec"; "model"] in
  let issues :=
    if negb found || bool_decide (model = "") then
      issues ++ [{| Severity := "error"; Field := "spec.model";
                    Message := "spec.model is required" |}]
    else issues in
  (* Check apiKeySecret *)
  let '(apiKeySecret, found) := NestedString obj ["spec"; "apiKeySecret"] in
  if negb found || bool_decide (apiKeySecret = "") then
    (* Only required for non-Ollama providers *)
    if negb (bool_decide (provider = "Ollama")) then
      issues ++ [{| Severity := "error"; Field := "spec.apiKeySecret";
                    Message := "spec.apiKeySecret is required for non-Ollama providers" |}]
    else issues
  else issues.

Definition validateMCPServer (obj : Object) (strict : bool)
  : list ValidationIssue :=
  let issues := [] in
  (* Check deployment *)
  let '(image, found) := NestedString obj ["spec"; "deployment"; "image"] in
  let issues :=
    if negb found || bool_decide (image = "") then
      issues ++ [{| Severity := "error"; Field := "spec.deployment.image";
                    Message := "spec.deployment.image is required for MCPServer" |}]
    else issues in
  (* Check transportType *)
  let '(transportType, _) := NestedString obj ["spec"; "transportType"] in
  if negb (bool_decide (transportType = ""))
     && negb (bool_decide (transportType = "stdio")) then
    issues ++ [{| Severity := "warning"; Field := "spec.transportType";
                  Message := "Unexpected transportType '" +:+ transportType +:+
                    "'. MCPServer typically uses 'stdio'" |}]
  else issues.

Definition validateRemoteMCPServer (obj : Object) (strict : bool)
  : list ValidationIssue :=
  let issues := [] in
  (* Check URL *)
  let '(url, found) := NestedString obj ["spec"; "url"] in
  let issues :=
    if negb found || bool_decide (url = "") then
      issues ++ [{| Severity := "error"; Field := "spec.url";
                    Message := "spec.url is required for RemoteMCPServer" |}]
    else if negb (String.prefix "http://" url)
            && negb (String.prefix "https://" url) then
      issues ++ [{| Severity := "error"; Field := "spec.url";
                    Message := "spec.url must start with http:// or https://" |}]
    else issues in
  (* Check protocol *)
  let '(protocol, _) := NestedString obj ["spec"; "protocol"] in
  if negb (bool_decide (protocol = ""))
     && negb (bool_decide (protocol = "STREAMABLE_HTTP"))
     && negb (bool_decide (protocol = "SSE")) then
    issues ++ [{| Severity := "error"; Field := "spec.protocol";
                  Message := "spec.protocol must be 'STREAMABLE_HTTP' or 'SSE'" |}]
  else issues.

Section WithCluster.
Context {S : Type} {dyn : DynamicInterface S} {json : JSONDecoder}.

Definition validateAgent (ts : ToolServer) (obj : Object) (strict : bool)
    (s : S) : list ValidationIssue :=
  let issues := [] in
  (* Check spec.type *)
  let '(specType, found) := NestedString obj ["spec"; "type"] in
  let issues :=
    if negb found || bool_decide (specType = "") then
      issues ++ [{| Severity := "error"; Field := "spec.type";
                    Message := "spec.type is required (should be 'Declarative' or 'BYO')" |}]
    else issues in
  let issues :=
    if bool_decide (specType = "Declarative") then
      (* Check modelConfig reference *)
      let '(modelConfig, found) :=
        NestedString obj ["spec"; "declarative"; "modelConfig"] in
      let issues :=
        if negb found || bool_decide (modelConfig = "") then
          issues ++ [{| Severity := "error";
                        Field := "spec.declarative.modelConfig";
                        Message := "spec.declarative.modelConfig is required for Declarative agents" |}]
        else
          (* Verify ModelConfig exists *)
          match GetModelConfig (k8sClient ts) modelConfig s with
          | Err _ =>
              issues ++ [{| Severity := "warning";
                            Field := "spec.declarative.modelConfig";
                            Message := "ModelConfig '" +:+ modelConfig +:+
                              "' not found in namespace. Ensure it exists before applying." |}]
          | OK _ => issues
          end in
      (* Check systemMessage *)
      let '(systemMessage, found) :=
        NestedString obj ["spec"; "declarative"; "systemMessage"] in
      if negb found || bool_decide (systemMessage = "") then
        issues ++ [{| Severity := "error";
                      Field := "spec.declarative.systemMessage";
                      Message := "spec.declarative.systemMessage is required for Declarative agents" |}]
      else if strict && (String.length systemMessage <? 100)%nat then
        issues ++ [{| Severity := "warning";
                      Field := "spec.declarative.systemMessage";
                      Message := "System message seems short. Consider providing more detailed instructions for the agent." |}]
      else issues
    else issues in
  (* Check description *)
  if strict then
    let '(description, _) := NestedString obj ["spec"; "description"] in
    if bool_decide (description = "") then
      issues ++ [{| Severity := "warning"; Field := "spec.description";
                    Message := "Consider adding a description to help users understand the agent's purpose" |}]
    else issues
  else issues.

(** [handleValidateManifest], from the decoded manifest to the issue
    list it renders. *)
Definition handleValidateManifest (ts : ToolServer) (obj : Object)
    (strict : bool) (s : S) : list ValidationIssue :=
  let issues := [] in
  (* Basic validation *)
  let issues :=
    if bool_decide (GetAPIVersion obj = "") then
      issues ++ [{| Severity := "error"; Field := "apiVersion";
                    Message := "apiVersion is required" |}]
    else issues in
  let issues :=
    if bool_decide (GetKind obj = "") then
      issues ++ [{| Severity := "error"; Field := "kind";
                    Message := "kind is required" |}]
    else issues in
  let issues :=
    if bool_decide (GetName obj = "") then
      issues ++ [{| Severity := "error"; Field := "metadata.name";
                    Message := "metadata.name is required" |}]
    else issues in
  (* Kind-specific validation *)
  if bool_decide (GetKind obj = "Agent") then
    issues ++ validateAgent ts obj strict s
  else if bool_decide (GetKind obj = "ModelConfig") then
    issues ++ validateModelConfig obj strict
  else if bool_decide (GetKind obj = "MCPServer") then
    issues ++ validateMCPServer obj strict
  else if bool_decide (GetKind obj = "RemoteMCPServer") then
    issues ++ validateRemoteMCPServer obj strict
  else
    issues ++ [{| Severity := "warning"; Field := "kind";
                  Message := "Unknown kind '" +:+ GetKind obj +:+
                    "'. Expected: Agent, ModelConfig, MCPServer, or RemoteMCPServer" |}].

(** [handleDiffManifest], from the decoded manifest on. *)
Definition handleDiffManifest (ts : ToolServer) (obj : Object) (s : S)
  : DiffResult :=
  let name := GetName obj in
  let kind := GetKind obj in
  (* Try to get current state *)
  match GetCurrentState (k8sClient ts) kind name s with
  | Err _ =>
      (* Resource doesn't exist *)
      NewResource kind name obj
  | OK currentObj =>
      (* Clean the proposed manifest for comparison *)
      let proposedClean : Object := filter (λ kv, kv.1 ≠ "status") obj in
      (* Generate diff *)
      if cmpDiffEmpty currentObj proposedClean
      then NoChanges kind name
      else Changes kind name currentObj proposedClean
  end.

End WithCluster.

End tools.

(** ** Observing the store calls

    A dynamic client that forwards to another one and logs every
    mutating call with its arguments, the way a test spy does. *)

Module recorder.
Import kubernetes.

Inductive StoreCall : Type :=
  | CreateCall (gvr : GroupVersionResource) (ns : string) (obj : Object)
      (opts : CreateOptions)
  | UpdateCall (gvr : GroupVersionResource) (ns : string) (obj : Object)
      (opts : UpdateOptions).

(** The [DryRun] option a logged call was submitted with. *)
Definition callDryRun (call : StoreCall) : list string :=
  match call with
  | CreateCall _ _ _ opts => createDryRun opts
  | UpdateCall _ _ _ opts => updateDryRun opts
  end.

Definition recording {S : Type} {dyn : DynamicInterface S}
  : DynamicInterface (S * list StoreCall) :=
  {| Get gvr ns name st := Get gvr ns name st.1;
     Create gvr ns obj opts st :=
       let '(r, s') := Create gvr ns obj opts st.1 in
       (r, (s', st.2 ++ [CreateCall gvr ns obj opts]));
     Update gvr ns obj opts st :=
       let '(r, s') := Update gvr ns obj opts st.1 in
       (r, (s', st.2 ++ [UpdateCall gvr ns obj opts])) |}.

(** [Apply] run against the logging client, from an empty log: the
    result, the cluster afterwards, the mutating calls submitted. *)
Definition ApplyRecorded {S : Type} {dyn : DynamicInterface S}
    (c : Client) (manifest : Object) (dryRun : bool) (s : S)
  : Result ApplyResult * (S * list StoreCall) :=
  Apply (dyn := recording) c manifest dryRun (s, []).

End recorder.

(** ** An in-memory cluster

    A stand-in for the API server in the manner of client-go's
    [dynamic/fake]: resources keyed by (resource, namespace, name);
    [Create] refuses a taken name, [Update] refuses a missing resource or
    a stale resource version, and a call carrying [DryRun: All] answers
    as usual without persisting. *)

Module fake.
Import unstructured kubernetes.

Abbreviation Cluster := (gmap (string * string * string) Object).

Definition key (gvr : GroupVersionResource) (ns name : string)
  : string * string * string := (Resource gvr, ns, name).

Definition fakeGet (gvr : GroupVersionResource) (ns name : string)
    (s : Cluster) : Result Object :=
  match s !! key gvr ns name with
  | Some obj => OK obj
  | None => Err (APIStatus NotFound)
  end.

Definition fakeCreate (gvr : GroupVersionResource) (ns : string)
    (obj : Object) (opts : CreateOptions) (s : Cluster)
  : Result Object * Cluster :=
  match s !! key gvr ns (GetName obj) with
  | Some _ => (Err (APIStatus AlreadyExists), s)
  | None =>
      (OK obj,
       if bool_decide (DryRunAll ∈ createDryRun opts) then s
       else <[key gvr ns (GetName obj) := obj]> s)
  end.

Definition fakeUpdate (gvr : GroupVersionResource) (ns : string)
    (obj : Object) (opts : UpdateOptions) (s : Cluster)
  : Result Object * Cluster :=
  match s !! key gvr ns (GetName obj) with
  | None => (Err (APIStatus NotFound), s)
  | Some current =>
      if bool_decide (GetResourceVersion obj = GetResourceVersion current)
      then
        (OK obj,
         if bool_decide (DryRunAll ∈ updateDryRun opts) then s
         else <[key gvr ns (GetName obj) := obj]> s)
      else (Err (APIStatus Conflict), s)
  end.

Definition cluster : DynamicInterface Cluster :=
  {| Get := fakeGet; Create := fakeCreate; Update := fakeUpdate |}.

(** The same cluster behind a connection on which every read fails
    with the given reason; writes go through. *)
Definition failingReads (reason : StatusReason) : DynamicInterface Cluster :=
  {| Get _ _ _ _ := Err (APIStatus reason);
     Create := fakeCreate; Update := fakeUpdate |}.

(** A decoder for the string fields of a ModelConfig: a missing field
    or [null] leaves the zero value, any other non-string is refused. *)
Definition jsonString (v : option value) : Result string :=
  match v with
  | None | Some VNull => OK ""
  | Some (VStr s) => OK s
  | Some _ => Err (Errorf "json: cannot unmarshal into Go value of type string" None)
  end.

Definition decodeModelConfig (obj : Object) : Result types.ModelConfig :=
  let field (path : list string) := jsonString (NestedFieldNoCopy (VMap obj) path) in
  match field ["spec"; "provider"], field ["spec"; "model"],
        field ["spec"; "apiKeySecret"], field ["spec"; "apiKeySecretKey"],
        field ["spec"; "baseUrl"] with
  | OK provider, OK model, OK secret, OK secretKey, OK baseUrl =>
      OK {| types.APIVersion := GetAPIVersion obj;
            types.Kind := GetKind obj;
            types.Name := GetName obj;
            types.Namespace := GetNamespace obj;
            types.Spec :=
              {| types.Provider := provider; types.Model := model;
                 types.APIKeySecret := secret;
                 types.APIKeySecretKey := secretKey;
                 types.BaseURL := baseUrl;
                 types.OpenAI := ∅; types.Anthropic := ∅;
                 types.Gemini := ∅; types.Azure := ∅;
                 types.Ollama := ∅ |} |}
  | _, _, _, _, _ =>
      Err (Errorf "json: cannot unmarshal into Go value of type string" None)
  end.

Definition decoder : JSONDecoder :=
  {| unmarshalModelConfig := decodeModelConfig |}.

End fake.

(** ** Sample manifests and clusters *)

Module samples.
Import unstructured kubernetes tools.

(** The tool server of the default deployment: namespace [kagent]. *)
Definition ts : ToolServer := {| k8sClient := {| namespace := "kagent" |} |}.

(** A declarative agent whose model config is not in the cluster and
    whose system message is five characters long. *)
Definition agentX : Object :=
  list_to_map
    [("apiVersion", VStr "kagent.dev/v1alpha2");
     ("kind", VStr "Agent");
     ("metadata", VMap (list_to_map [("name", VStr "x")]));
     ("spec", VMap (list_to_map
        [("type", VStr "Declarative");
         ("declarative", VMap (list_to_map
            [("modelConfig", VStr "missing-mc");
             ("systemMessage", VStr "short")]))]))].

(** A manifest without [kind]. *)
Definition noKind : Object :=
  list_to_map
    [("apiVersion", VStr "kagent.dev/v1alpha2");
     ("metadata", VMap (list_to_map [("name", VStr "x")]))].

Definition emptyCluster : fake.Cluster := ∅.

(** A ModelConfig with a provider outside the enumeration. *)
Definition modelConfigBogus : Object :=
  list_to_map
    [("apiVersion", VStr "kagent.dev/v1alpha2");
     ("kind", VStr "ModelConfig");
     ("metadata", VMap (list_to_map [("name", VStr "mc")]));
     ("spec", VMap (list_to_map
        [("provider", VStr "Bogus");
         ("model", VStr "gpt-4o");
         ("apiKeySecret", VStr "openai-key")]))].

(** A RemoteMCPServer with a protocol outside the enumeration. *)
Definition remoteWS : Object :=
  list_to_map
    [("apiVersion", VStr "kagent.dev/v1alpha2");
     ("kind", VStr "RemoteMCPServer");
     ("metadata", VMap (list_to_map [("name", VStr "remote")]));
     ("spec", VMap (list_to_map
        [("url", VStr "https://mcp.example.com/mcp");
         ("protocol", VStr "WS")]))].

(** An agent as a user writes it: no status, no server-managed
    metadata. *)
Definition agentManifest (ns : string) : Object :=
  list_to_map
    [("apiVersion", VStr "kagent.dev/v1alpha2");
     ("kind", VStr "Agent");
     ("metadata", VMap (list_to_map
        [("name", VStr "x"); ("namespace", VStr ns)]));
     ("spec", VMap (list_to_map
        [("type", VStr "BYO"); ("description", VStr "demo agent")]))].

(** The same agent as the cluster holds it at resource version [rv],
    with status and the metadata the server maintains. *)
Definition agentLive (ns rv : string) : Object :=
  list_to_map
    [("apiVersion", VStr "kagent.dev/v1alpha2");
     ("kind", VStr "Agent");
     ("metadata", VMap (list_to_map
        [("name", VStr "x"); ("namespace", VStr ns);
         ("uid", VStr "9f1c2d3e"); ("resourceVersion", VStr rv);
         ("generation", VNum 1%Qc);
         ("creationTimestamp", VStr "2025-01-01T00:00:00Z");
         ("managedFields", VList [])]));
     ("spec", VMap (list_to_map
        [("type", VStr "BYO"); ("description", VStr "demo agent")]));
     ("status", VMap (list_to_map [("ready", VBool true)]))].

(** An agent manifest that names no namespace. *)
Definition agentNoNamespace : Object :=
  list_to_map
    [("apiVersion", VStr "kagent.dev/v1alpha2");
     ("kind", VStr "Agent");
     ("metadata", VMap (list_to_map [("name", VStr "x")]));
     ("spec", VMap (list_to_map
        [("type", VStr "BYO"); ("description", VStr "demo agent")]))].

(** An Ollama model config: no API key secret needed. *)
Definition modelConfigOllama : Object :=
  list_to_map
    [("apiVersion", VStr "kagent.dev/v1alpha2");
     ("kind", VStr "ModelConfig");
     ("metadata", VMap (list_to_map [("name", VStr "local")]));
     ("spec", VMap (list_to_map
        [("provider", VStr "Ollama"); ("model", VStr "llama3")]))].

(** A manifest of a kind the client has no resource for. *)
Definition widget : Object :=
  list_to_map
    [("apiVersion", VStr "example.com/v1");
     ("kind", VStr "Widget");
     ("metadata", VMap (list_to_map [("name", VStr "w")]))].

(** A cluster holding agent [x] in one namespace, at resource version
    41. *)
Definition clusterWith (ns : string) : fake.Cluster :=
  {[ fake.key AgentGVR ns "x" := agentLive ns "41" ]}.

End samples.

(** ** Vocabulary of the properties *)

Module props.
Import tools.

Definition isError (i : ValidationIssue) : bool :=
  bool_decide (Severity i = "error").

Definition isWarning (i : ValidationIssue) : bool :=
  bool_decide (Severity i = "warning").

Definition issue_eqb (i j : ValidationIssue) : bool :=
  bool_decide (Severity i = Severity j)
  && bool_decide (Field i = Field j)
  && bool_decide (Message i = Message j).

(** The two warnings [validateAgent] raises under [strict] only. *)
Definition shortSystemMessage : ValidationIssue :=
  {| Severity := "warning"; Field := "spec.declarative.systemMessage";
     Message := "System message seems short. Consider providing more detailed instructions for the agent." |}.

Definition missingDescription : ValidationIssue :=
  {| Severity := "warning"; Field := "spec.description";
     Message := "Consider adding a description to help users understand the agent's purpose" |}.

Definition strictGated (i : ValidationIssue) : bool :=
  issue_eqb i shortSystemMessage || issue_eqb i missingDescription.

(** The enum errors of the ModelConfig and RemoteMCPServer rules. *)
Definition invalidProvider (provider : string) : ValidationIssue :=
  {| Severity := "error"; Field := "spec.provider";
     Message := "Invalid provider '" +:+ provider +:+
       "'. Must be one of: OpenAI, AzureOpenAI, Anthropic, Gemini, Ollama, Custom" |}.

Definition invalidProtocol : ValidationIssue :=
  {| Severity := "error"; Field := "spec.protocol";
     Message := "spec.protocol must be 'STREAMABLE_HTTP' or 'SSE'" |}.

Import unstructured kubernetes recorder.

(** The manifest after the namespace step of [Apply]. *)
Definition withNamespace (c : Client) (manifest : Object) : Object :=
  if decide (GetNamespace manifest = "")
  then SetNamespace manifest (namespace c)
  else manifest.

Definition dryRunOption (dryRun : bool) : list string :=
  if dryRun then [DryRunAll] else [].

(** What [Apply] returns after the store call answered [r]: the
    outcome with the given action, or the store's error wrapped. *)
Definition applyOutcome (action failure : string) (obj : Object)
    (dryRun : bool) (r : Result Object) : Result ApplyResult :=
  match r with
  | OK _ =>
      OK {| Action := action; Kind := GetKind obj; Name := GetName obj;
            Namespace := GetNamespace obj; DryRun := dryRun |}
  | Err e => Err (Errorf failure (Some e))
  end.

(** A logged call without its options. *)
Definition callTarget (call : StoreCall)
  : bool * GroupVersionResource * string * Object :=
  match call with
  | CreateCall gvr ns obj _ => (true, gvr, ns, obj)
  | UpdateCall gvr ns obj _ => (false, gvr, ns, obj)
  end.

(** A store that honours the dry-run mark: a marked call persists
    nothing. *)
Definition honoursDryRun {S : Type} (dyn : DynamicInterface S) : Prop :=
  (∀ gvr ns obj opts s,
      DryRunAll ∈ createDryRun opts → (Create gvr ns obj opts s).2 = s)
  ∧ (∀ gvr ns obj opts s,
      DryRunAll ∈ updateDryRun opts → (Update gvr ns obj opts s).2 = s).

(** The metadata fields [GetCurrentState] strips. *)
Definition serverManagedMetadata : list string :=
  ["creationTimestamp"; "generation"; "resourceVersion"; "uid";
   "managedFields"].

(** A manifest that carries none of them. *)
Definition carriesNoServerMetadata (obj : Object) : Prop :=
  ∀ field, field ∈ serverManagedMetadata →
    NestedFieldNoCopy (VMap obj) ["metadata"; field] = None.

(** An object without [status] and without the three metadata fields
    [resourceVersion], [uid] and [managedFields]: two objects that
    differ in these only have the same image. *)
Definition withoutVolatile (obj : Object) : Object :=
  let obj := delete "status" obj in
  let obj := RemoveNestedField obj ["metadata"; "resourceVersion"] in
  let obj := RemoveNestedField obj ["metadata"; "uid"] in
  RemoveNestedField obj ["metadata"; "managedFields"].

End props.

(** ** Vocabulary of the further properties *)

Module facts.
Import unstructured kubernetes tools.

(** The error-severity issues of the Agent rules, each under the
    condition the source raises it. *)
Definition agentErrors (obj : Object) : list ValidationIssue :=
  let specType := getNestedString obj ["spec"; "type"] in
  (if bool_decide (specType = "") then
     [{| Severity := "error"; Field := "spec.type";
         Message := "spec.type is required (should be 'Declarative' or 'BYO')" |}]
   else [])
  ++ (if bool_decide (specType = "Declarative") then
        (if bool_decide
              (getNestedString obj ["spec"; "declarative"; "modelConfig"] = "")
         then
           [{| Severity := "error"; Field := "spec.declarative.modelConfig";
               Message := "spec.declarative.modelConfig is required for Declarative agents" |}]
         else [])
        ++ (if bool_decide
                 (getNestedString obj
                    ["spec"; "declarative"; "systemMessage"] = "")
            then
              [{| Severity := "error";
                  Field := "spec.declarative.systemMessage";
                  Message := "spec.declarative.systemMessage is required for Declarative agents" |}]
            else [])
      else []).

(** The kinds the client has a resource for. *)
Definition knownKinds : list string :=
  ["Agent"; "ModelConfig"; "MCPServer"; "RemoteMCPServer"].

(** An issue as the validators raise them: severity [error] or
    [warning], on a field other than [kind]. *)
Definition ruleIssue (i : ValidationIssue) : bool :=
  (bool_decide (Severity i = "error") || bool_decide (Severity i = "warning"))
  && negb (bool_decide (Field i = "kind")).

End facts.

(** ** Vocabulary of the reconciler properties *)

Module frames.
Import unstructured kubernetes recorder.

(** The object a logged call submits. *)
Definition callObject (call : StoreCall) : Object :=
  match call with
  | CreateCall _ _ obj _ => obj
  | UpdateCall _ _ obj _ => obj
  end.

(** The namespace a logged call is addressed to. *)
Definition callNamespace (call : StoreCall) : string :=
  match call with
  | CreateCall _ ns _ _ => ns
  | UpdateCall _ ns _ _ => ns
  end.

(** Two objects that agree everywhere but in the listed fields of
    [metadata]: on every other top-level key and on every other key
    under [metadata]. *)
Definition agreeOutsideMetadata (fields : list string) (x y : Object) : Prop :=
  (∀ k, k ≠ "metadata" → x !! k = y !! k)
  ∧ (∀ g, g ∉ fields →
       NestedFieldNoCopy (VMap x) ["metadata"; g] =
         NestedFieldNoCopy (VMap y) ["metadata"; g]).

End frames.

(** ** pkg/types: the typed view of an Agent *)

Module agenttypes.

(** [McpServerRef]. *)
Record McpServerRef : Type := {
  RefName : string;
  RefKind : string;
  APIGroup : string;
  ToolNames : list string
}.

(** [ToolSpec]; the [McpServer] pointer may be [nil]. *)
Record ToolSpec : Type := {
  ToolType : string;
  McpServer : option McpServerRef
}.

(** [DeclarativeSpec]. *)
Record DeclarativeSpec : Type := {
  ModelConfig : string;
  SystemMessage : string;
  Tools : list ToolSpec
}.

(** [Skill]. *)
Record Skill : Type := {
  ID : string;
  SkillName : string;
  SkillDescription : string;
  InputModes : list string;
  OutputModes : list string;
  Tags : list string;
  Examples : list string
}.

(** [A2AConfig]. *)
Record A2AConfig : Type := { Skills : list Skill }.

(** [AgentSpec]; [Declarative] and [A2AConfig] are pointers. *)
Record AgentSpec : Type := {
  Type_ : string;
  Description : string;
  Declarative : option DeclarativeSpec;
  A2A : option A2AConfig
}.

(** [AgentStatus]. *)
Record AgentStatus : Type := {
  Ready : bool;
  Accepted : bool;
  StatusMessage : string
}.

(** [Agent]: the inlined [TypeMeta], of [ObjectMeta] the two fields the
    repository reads and writes, the spec and the status. *)
Record Agent : Type := {
  APIVersion : string;
  Kind : string;
  Name : string;
  Namespace : string;
  Spec : AgentSpec;
  Status : AgentStatus
}.

End agenttypes.

(** ** internal/kubernetes/client.go: reading an agent, deleting *)

Module deletion.
Import unstructured kubernetes.

(** [metav1.DeleteOptions]: the [DryRun] field. *)
Record DeleteOptions : Type := { deleteDryRun : list string }.

(** [Delete] of [dynamic.ResourceInterface]: the error, if any, and the
    cluster afterwards. *)
Class DynamicDelete (S : Type) : Type := {
  DeleteResource : GroupVersionResource → string → string → DeleteOptions →
                   S → option error * S
}.

(** [encoding/json]: [json.Marshal] of the tree followed by
    [json.Unmarshal] into [types.Agent]. *)
Class AgentDecoder : Type := {
  unmarshalAgent : Object → Result agenttypes.Agent
}.

Section WithCluster.
Context {S : Type} {dyn : DynamicInterface S} {del : DynamicDelete S}
  {json : AgentDecoder}.

Definition unstructuredToAgent (obj : Object) : Result agenttypes.Agent :=
  match unmarshalAgent obj with
  | Err e => Err (Errorf "failed to unmarshal to agent" (Some e))
  | OK agent => OK agent
  end.

(** [GetAgent]: a specific agent of the configured namespace. *)
Definition GetAgent (c : Client) (name : string) (s : S)
  : Result agenttypes.Agent :=
  match Get AgentGVR (namespace c) name s with
  | Err e => Err (Errorf ("failed to get agent " +:+ name) (Some e))
  | OK obj => unstructuredToAgent obj
  end.

(** [Delete]: deletes a resource from the cluster. *)
Definition Delete (c : Client) (kind name : string) (dryRun : bool) (s : S)
  : option error * S :=
  match gvrFromKind kind with
  | Err e => (Some e, s)
  | OK gvr =>
      let opts := {| deleteDryRun := if dryRun then [DryRunAll] else [] |} in
      DeleteResource gvr (namespace c) name opts s
  end.

End WithCluster.

End deletion.

(** ** internal/tools/agents.go: delete_agent *)

Module agenttools.
Import unstructured kubernetes tools deletion.

(** What [handleDeleteAgent] answers: the three tool errors, the
    dry-run preview with the fields it prints, the success text. *)
Inductive DeleteAgentResult : Type :=
  | NameRequired
  | AgentNotFound (e : error)
  | DryRunPreview (name ns description : string)
  | DeleteFailed (e : error)
  | Deleted (name : string).

Section WithCluster.
Context {S : Type} {dyn : DynamicInterface S} {del : DynamicDelete S}
  {json : AgentDecoder}.

(** [handleDeleteAgent], from the extracted arguments on: [name] is the
    empty string when the argument is missing or not a string,
    [dryRun] is [false] when the argument is missing or not a boolean. *)
Definition handleDeleteAgent (ts : ToolServer) (name : string)
    (dryRun : bool) (s : S) : DeleteAgentResult * S :=
  if bool_decide (name = "") then (NameRequired, s)
  else
    (* Verify agent exists first *)
    match GetAgent (k8sClient ts) name s with
    | Err e => (AgentNotFound e, s)
    | OK agent =>
        if dryRun then
          (DryRunPreview (agenttypes.Name agent) (agenttypes.Namespace agent)
             (agenttypes.Description (agenttypes.Spec agent)), s)
        else
          let '(err, s') := Delete (k8sClient ts) "Agent" name false s in
          match err with
          | Some e => (DeleteFailed e, s')
          | None => (Deleted name, s')
          end
    end.

End WithCluster.

End agenttools.

(** ** pkg/types: the typed views of the two tool-server kinds *)

Module servertypes.

(** [EnvVar]. *)
Record EnvVar : Type := { EnvName : string; EnvValue : string }.

(** [ResourceRequirements]: two [map[string]string]. *)
Record ResourceRequirements : Type := {
  Requests : gmap string string;
  Limits : gmap string string
}.

(** [DeploymentSpec]; [Port] is an [int32], [Resources] a pointer. *)
Record DeploymentSpec : Type := {
  Image : string;
  Cmd : string;
  Args : list string;
  Port : Z;
  Env : list EnvVar;
  Resources : option ResourceRequirements
}.

(** [MCPServerSpec]; [Deployment] is a pointer. *)
Record MCPServerSpec : Type := {
  Description : string;
  Deployment : option DeploymentSpec;
  TransportType : string;
  StdioTransport : Object
}.

(** [MCPServer]: type meta, name and namespace, spec. *)
Record MCPServer : Type := {
  APIVersion : string;
  Kind : string;
  Name : string;
  Namespace : string;
  Spec : MCPServerSpec
}.

(** [RemoteMCPServerSpec]. *)
Record RemoteMCPServerSpec : Type := {
  RemoteDescription : string;
  URL : string;
  Protocol : string;
  Timeout : string;
  SSEReadTimeout : string;
  TerminateOnClose : bool
}.

(** [RemoteMCPServer]: type meta, name and namespace, spec. *)
Record RemoteMCPServer : Type := {
  RemoteAPIVersion : string;
  RemoteKind : string;
  RemoteName : string;
  RemoteNamespace : string;
  RemoteSpec : RemoteMCPServerSpec
}.

End servertypes.

(** ** The JSON form of the specs

    What [json.Marshal] (and with it [yaml.Marshal]) writes for the spec
    structs, field by field from their tags.  With [omitempty] an empty
    string, a zero number, [false], a [nil] pointer and a [nil] or empty
    slice or map write nothing. *)

Module encoding.
Import unstructured.

Definition omitString (key v : string) (m : Object) : Object :=
  if decide (v = "") then m else <[key := VStr v]> m.

Definition omitStrings (key : string) (l : list string) (m : Object) : Object :=
  if decide (l = []) then m else <[key := VList (VStr <$> l)]> m.

Definition omitList (key : string) (l : list Object) (m : Object) : Object :=
  if decide (l = []) then m else <[key := VList (VMap <$> l)]> m.

Definition omitMap (key : string) (x : Object) (m : Object) : Object :=
  if decide (x = ∅) then m else <[key := VMap x]> m.

Definition omitPointer (key : string) (x : option Object) (m : Object)
  : Object :=
  match x with
  | Some o => <[key := VMap o]> m
  | None => m
  end.

Definition omitBool (key : string) (b : bool) (m : Object) : Object :=
  if b then <[key := VBool true]> m else m.

Definition omitInt (key : string) (n : Z) (m : Object) : Object :=
  if decide (n = 0%Z) then m
  else <[key := VNum (Qcanon.Q2Qc (QArith_base.inject_Z n))]> m.

Definition encodeModelConfigSpec (spec : types.ModelConfigSpec) : Object :=
  omitString "provider" (types.Provider spec)
    (omitString "model" (types.Model spec)
    (omitString "apiKeySecret" (types.APIKeySecret spec)
    (omitString "apiKeySecretKey" (types.APIKeySecretKey spec)
    (omitString "baseUrl" (types.BaseURL spec)
    (omitMap "openai" (types.OpenAI spec)
    (omitMap "anthropic" (types.Anthropic spec)
    (omitMap "gemini" (types.Gemini spec)
    (omitMap "azure" (types.Azure spec)
    (omitMap "ollama" (types.Ollama spec) ∅))))))))).

Definition encodeMcpServerRef (ref : agenttypes.McpServerRef) : Object :=
  omitString "name" (agenttypes.RefName ref)
    (omitString "kind" (agenttypes.RefKind ref)
    (omitString "apiGroup" (agenttypes.APIGroup ref)
    (omitStrings "toolNames" (agenttypes.ToolNames ref) ∅))).

Definition encodeToolSpec (tool : agenttypes.ToolSpec) : Object :=
  omitString "type" (agenttypes.ToolType tool)
    (omitPointer "mcpServer"
       (encodeMcpServerRef <$> agenttypes.McpServer tool) ∅).

Definition encodeDeclarativeSpec (d : agenttypes.DeclarativeSpec) : Object :=
  omitString "modelConfig" (agenttypes.ModelConfig d)
    (omitString "systemMessage" (agenttypes.SystemMessage d)
    (omitList "tools" (encodeToolSpec <$> agenttypes.Tools d) ∅)).

Definition encodeSkill (skill : agenttypes.Skill) : Object :=
  omitString "id" (agenttypes.ID skill)
    (omitString "name" (agenttypes.SkillName skill)
    (omitString "description" (agenttypes.SkillDescription skill)
    (omitStrings "inputModes" (agenttypes.InputModes skill)
    (omitStrings "outputModes" (agenttypes.OutputModes skill)
    (omitStrings "tags" (agenttypes.Tags skill)
    (omitStrings "examples" (agenttypes.Examples skill) ∅)))))).

Definition encodeA2AConfig (a2a : agenttypes.A2AConfig) : Object :=
  omitList "skills" (encodeSkill <$> agenttypes.Skills a2a) ∅.

Definition encodeAgentSpec (spec : agenttypes.AgentSpec) : Object :=
  omitString "type" (agenttypes.Type_ spec)
    (omitString "description" (agenttypes.Description spec)
    (omitPointer "declarative"
       (encodeDeclarativeSpec <$> agenttypes.Declarative spec)
    (omitPointer "a2aConfig"
       (encodeA2AConfig <$> agenttypes.A2A spec) ∅))).

Definition encodeEnvVar (env : servertypes.EnvVar) : Object :=
  omitString "name" (servertypes.EnvName env)
    (omitString "value" (servertypes.EnvValue env) ∅).

Definition encodeResourceRequirements
    (r : servertypes.ResourceRequirements) : Object :=
  omitMap "requests" (VStr <$> servertypes.Requests r)
    (omitMap "limits" (VStr <$> servertypes.Limits r) ∅).

Definition encodeDeploymentSpec (d : servertypes.DeploymentSpec) : Object :=
  omitString "image" (servertypes.Image d)
    (omitString "cmd" (servertypes.Cmd d)
    (omitStrings "args" (servertypes.Args d)
    (omitInt "port" (servertypes.Port d)
    (omitList "env" (encodeEnvVar <$> servertypes.Env d)
    (omitPointer "resources"
       (encodeResourceRequirements <$> servertypes.Resources d) ∅))))).

Definition encodeMCPServerSpec (spec : servertypes.MCPServerSpec) : Object :=
  omitString "description" (servertypes.Description spec)
    (omitPointer "deployment"
       (encodeDeploymentSpec <$> servertypes.Deployment spec)
    (omitString "transportType" (servertypes.TransportType spec)
    (omitMap "stdioTransport" (servertypes.StdioTransport spec) ∅))).

Definition encodeRemoteMCPServerSpec
    (spec : servertypes.RemoteMCPServerSpec) : Object :=
  omitString "description" (servertypes.RemoteDescription spec)
    (omitString "url" (servertypes.URL spec)
    (omitString "protocol" (servertypes.Protocol spec)
    (omitString "timeout" (servertypes.Timeout spec)
    (omitString "sseReadTimeout" (servertypes.SSEReadTimeout spec)
    (omitBool "terminateOnClose" (servertypes.TerminateOnClose spec) ∅))))).

(** A manifest tree read back from the YAML written for a resource with
    this type meta, name, namespace and spec.  The type meta and the two
    metadata fields are written under [apiVersion], [kind],
    [metadata.name] and [metadata.namespace]; what else the writer puts
    under [metadata] or beside [spec] is left open. *)
Definition renders (apiVersion kind name ns : string) (spec : Object)
    (obj : Object) : Prop :=
  GetAPIVersion obj = apiVersion
  ∧ GetKind obj = kind
  ∧ GetName obj = name
  ∧ GetNamespace obj = ns
  ∧ obj !! "spec" = Some (VMap spec).

End encoding.

(** ** internal/tools: the manifest generators *)

Module generators.
Import unstructured kubernetes tools.

(** What a generator answers: a tool error with its text, or the typed
    resource it then prints as YAML under a comment header. *)
Inductive Generated (A : Type) : Type :=
  | Refused (msg : string)
  | Manifest (a : A).

Arguments Refused {A} msg.
Arguments Manifest {A} a.

(** The anonymous struct the tool configurations are decoded into. *)
Record ToolConfig : Type := {
  tcMCPServer : string;
  tcKind : string;
  tcTools : list string
}.

(** The decoders of argument texts, [json.Unmarshal] at the types the
    handlers use, and the conversion of a [float64] argument to [int32].
    [unmarshalArgs] is what is left in the slice, the handler dropping
    the error. *)
Class ArgumentDecoder : Type := {
  unmarshalToolConfigs : string → Result (list ToolConfig);
  unmarshalSkills : string → Result (list agenttypes.Skill);
  unmarshalArgs : string → list string;
  int32 : Qcanon.Qc → Z
}.

(** The tool an agent gets for one tool configuration. *)
Definition toolOfConfig (tc : ToolConfig) : agenttypes.ToolSpec :=
  let kind := if bool_decide (tcKind tc = "") then "MCPServer" else tcKind tc in
  {| agenttypes.ToolType := "McpServer";
     agenttypes.McpServer :=
       Some {| agenttypes.RefName := tcMCPServer tc;
               agenttypes.RefKind := kind;
               agenttypes.APIGroup := "";
               agenttypes.ToolNames := tcTools tc |} |}.

(** [handleCreateModelConfigManifest], from the extracted arguments (a
    missing argument is the empty string) to the resource it prints. *)
Definition handleCreateModelConfigManifest
    (name provider model apiKeySecret apiKeySecretKey baseURL : string)
  : Generated types.ModelConfig :=
  if bool_decide (name = "") || bool_decide (provider = "")
     || bool_decide (model = "") || bool_decide (apiKeySecret = "") then
    Refused "name, provider, model, and api_key_secret are required"
  else
    (* Validate provider *)
    let validProviders : gmap string bool :=
      list_to_map [("OpenAI", true); ("AzureOpenAI", true);
                   ("Anthropic", true); ("Gemini", true);
                   ("Ollama", true); ("Custom", true)] in
    if negb (default false (validProviders !! provider)) then
      Refused ("Invalid provider '" +:+ provider +:+
               "'. Must be one of: OpenAI, AzureOpenAI, Anthropic, Gemini, Ollama, Custom")
    else
      (* Set default secret key based on provider *)
      let apiKeySecretKey :=
        if bool_decide (apiKeySecretKey = "") then
          if bool_decide (provider = "OpenAI") then "OPENAI_API_KEY"
          else if bool_decide (provider = "Anthropic") then "ANTHROPIC_API_KEY"
          else if bool_decide (provider = "Gemini") then "GOOGLE_API_KEY"
          else if bool_decide (provider = "AzureOpenAI")
               then "AZURE_OPENAI_API_KEY"
          else "API_KEY"
        else apiKeySecretKey in
      (* The provider-specific config is an empty map, which reads like
         the nil one. *)
      Manifest
        {| types.APIVersion := "kagent.dev/v1alpha2";
           types.Kind := "ModelConfig";
           types.Name := name;
           types.Namespace := "kagent";
           types.Spec :=
             {| types.Provider := provider;
                types.Model := model;
                types.APIKeySecret := apiKeySecret;
                types.APIKeySecretKey := apiKeySecretKey;
                types.BaseURL := baseURL;
                types.OpenAI := ∅; types.Anthropic := ∅;
                types.Gemini := ∅; types.Azure := ∅;
                types.Ollama := ∅ |} |}.

(** [createRemoteMCPServerManifest], with the arguments it reads from
    the request. *)
Definition createRemoteMCPServerManifest
    (url protocol timeout name description : string)
  : Generated servertypes.RemoteMCPServer :=
  if bool_decide (url = "") then
    Refused "url is required for RemoteMCPServer type"
  else
    let protocol :=
      if bool_decide (protocol = "") then "STREAMABLE_HTTP" else protocol in
    let timeout := if bool_decide (timeout = "") then "30s" else timeout in
    Manifest
      {| servertypes.RemoteAPIVersion := "kagent.dev/v1alpha2";
         servertypes.RemoteKind := "RemoteMCPServer";
         servertypes.RemoteName := name;
         servertypes.RemoteNamespace := "kagent";
         servertypes.RemoteSpec :=
           {| servertypes.RemoteDescription := description;
              servertypes.URL := url;
              servertypes.Protocol := protocol;
              servertypes.Timeout := timeout;
              servertypes.SSEReadTimeout := "5m0s";
              servertypes.TerminateOnClose := true |} |}.

Section WithDecoder.
Context {args : ArgumentDecoder}.

(** [handleCreateAgentManifest], from the extracted arguments to the
    agent it prints. *)
Definition handleCreateAgentManifest
    (name description systemMessage modelConfig toolsJSON skillsJSON : string)
  : Generated agenttypes.Agent :=
  if bool_decide (name = "") || bool_decide (systemMessage = "")
     || bool_decide (modelConfig = "") then
    Refused "name, system_message, and model_config are required"
  else
    (* Parse tools if provided *)
    let tools :=
      if negb (bool_decide (toolsJSON = "")) then
        match unmarshalToolConfigs toolsJSON with
        | OK toolConfigs => toolOfConfig <$> toolConfigs
        | Err _ => []
        end
      else [] in
    (* Parse skills if provided *)
    let a2a :=
      if negb (bool_decide (skillsJSON = "")) then
        match unmarshalSkills skillsJSON with
        | OK skills => Some {| agenttypes.Skills := skills |}
        | Err _ => None
        end
      else None in
    Manifest
      {| agenttypes.APIVersion := "kagent.dev/v1alpha2";
         agenttypes.Kind := "Agent";
         agenttypes.Name := name;
         agenttypes.Namespace := "kagent";
         agenttypes.Spec :=
           {| agenttypes.Type_ := "Declarative";
              agenttypes.Description := description;
              agenttypes.Declarative :=
                Some {| agenttypes.ModelConfig := modelConfig;
                        agenttypes.SystemMessage := systemMessage;
                        agenttypes.Tools := tools |};
              agenttypes.A2A := a2a |};
         agenttypes.Status :=
           {| agenttypes.Ready := false; agenttypes.Accepted := false;
              agenttypes.StatusMessage := "" |} |}.

(** [createMCPServerManifest], with the arguments it reads from the
    request; [portFloat] is [0] when the argument is missing. *)
Definition createMCPServerManifest
    (image command argsJSON : string) (portFloat : Qcanon.Qc)
    (name description : string)
  : Generated servertypes.MCPServer :=
  if bool_decide (image = "") then
    Refused "image is required for MCPServer type"
  else
    let port :=
      if bool_decide (Qcanon.Qclt (Qcanon.Q2Qc (QArith_base.inject_Z 0)) portFloat)
      then int32 portFloat else 3000%Z in
    let args :=
      if negb (bool_decide (argsJSON = "")) then unmarshalArgs argsJSON
      else [] in
    Manifest
      {| servertypes.APIVersion := "kagent.dev/v1alpha1";
         servertypes.Kind := "MCPServer";
         servertypes.Name := name;
         servertypes.Namespace := "kagent";
         servertypes.Spec :=
           {| servertypes.Description := description;
              servertypes.Deployment :=
                Some {| servertypes.Image := image;
                        servertypes.Cmd := command;
                        servertypes.Args := args;
                        servertypes.Port := port;
                        servertypes.Env := [];
                        servertypes.Resources := None |};
              servertypes.TransportType := "stdio";
              servertypes.StdioTransport := ∅ |} |}.

(** What [handleCreateMCPServerManifest] prints: one of the two
    kinds. *)
Inductive ServerManifest : Type :=
  | LocalServer (server : servertypes.MCPServer)
  | RemoteServer (server : servertypes.RemoteMCPServer).

(** [handleCreateMCPServerManifest], from the extracted arguments. *)
Definition handleCreateMCPServerManifest
    (name serverType description image command argsJSON : string)
    (portFloat : Qcanon.Qc) (url protocol timeout : string)
  : Generated ServerManifest :=
  if bool_decide (name = "") || bool_decide (serverType = "") then
    Refused "name and server_type are required"
  else if bool_decide (serverType = "MCPServer") then
    match createMCPServerManifest image command argsJSON portFloat
            name description with
    | Refused msg => Refused msg
    | Manifest server => Manifest (LocalServer server)
    end
  else if bool_decide (serverType = "RemoteMCPServer") then
    match createRemoteMCPServerManifest url protocol timeout
            name description with
    | Refused msg => Refused msg
    | Manifest server => Manifest (RemoteServer server)
    end
  else Refused "server_type must be 'MCPServer' or 'RemoteMCPServer'".

End WithDecoder.

End generators.

(** ** internal/tools: the text of a validation result *)

Module rendering.
Import tools.

Definition newline : string :=
  String (Ascii.Ascii false true false true false false false false) "".

Definition passedText : string :=
  "✓ Validation passed. Manifest is valid and ready to apply.".

Definition errorsVerdict : string :=
  "❌ Manifest has errors and should not be applied until they are resolved.".

Definition warningsVerdict : string :=
  "⚠️  Manifest has warnings but can be applied. Consider addressing warnings for best practices.".

(** One line of the report, [fmt.Sprintf] of the prefix, the field and
    the message. *)
Definition issueLine (issue : ValidationIssue) : string :=
  let prefix :=
    if bool_decide (Severity issue = "error") then "❌ ERROR" else "⚠️  WARNING" in
  prefix +:+ " [" +:+ Field issue +:+ "]: " +:+ Message issue +:+ newline.

(** The second half of [handleValidateManifest]: the text returned for
    an issue list. *)
Definition renderIssues (issues : list ValidationIssue) : string :=
  if bool_decide (length issues = 0) then passedText
  else
    let '(result, hasErrors) :=
      foldl (λ '(result, hasErrors) issue,
               (result +:+ issueLine issue,
                if bool_decide (Severity issue = "error") then true
                else hasErrors))
        ("Validation Results:" +:+ newline +:+ newline, false) issues in
    let result := result +:+ newline in
    if hasErrors then result +:+ errorsVerdict
    else result +:+ warningsVerdict.

End rendering.

(** ** internal/tools: the comment header above a generated manifest *)

Module headers.
Import rendering.

(** The lines [handleCreateModelConfigManifest] prints above the YAML of
    the resource: [fmt.Sprintf] of its template at the secret and the
    secret key, the key after defaulting. *)
Definition modelConfigHeader (apiKeySecret apiKeySecretKey : string)
  : string :=
  "# Generated ModelConfig Manifest" +:+ newline
  +:+ "# IMPORTANT: Ensure the Kubernetes Secret '" +:+ apiKeySecret
  +:+ "' exists with key '" +:+ apiKeySecretKey
  +:+ "' containing the API key." +:+ newline
  +:+ "# Use validate_manifest to check, then apply_manifest to deploy."
  +:+ newline +:+ newline.

(** The lines [createRemoteMCPServerManifest] prints above the YAML of
    the resource, at the url and the protocol, the protocol after
    defaulting. *)
Definition remoteServerHeader (url protocol : string) : string :=
  "# Generated RemoteMCPServer Manifest" +:+ newline
  +:+ "# This connects to an external MCP server at " +:+ url
  +:+ " using " +:+ protocol +:+ " protocol." +:+ newline
  +:+ "# Use validate_manifest to check, then apply_manifest to deploy."
  +:+ newline +:+ newline.

(** A text of printable ASCII characters only: no line break, no
    control character, no byte of a multi-byte character. *)
Fixpoint printable (s : string) : bool :=
  match s with
  | EmptyString => true
  | String a rest =>
      Nat.leb 32 (Ascii.nat_of_ascii a) && Nat.leb (Ascii.nat_of_ascii a) 126
      && printable rest
  end.

(** Where a reader of the text stands: at the start of a line, or behind
    the [#] of a comment. *)
Inductive Position : Type := LineStart | InComment.

(** Reading a text that is to consist of comment lines and empty lines:
    the position after the text, or [None] once a line starts with
    anything but [#].  Byte 10 is the line feed, byte 35 is [#]. *)
Fixpoint scanComments (p : Position) (s : string) : option Position :=
  match s with
  | EmptyString => Some p
  | String a rest =>
      if Ascii.eqb a (Ascii.ascii_of_nat 10) then scanComments LineStart rest
      else
        match p with
        | InComment => scanComments InComment rest
        | LineStart =>
            if Ascii.eqb a (Ascii.ascii_of_nat 35) then
              scanComments InComment rest
            else None
        end
  end.

(** The text is made of whole comment lines and empty lines. *)
Definition commentOnly (s : string) : bool :=
  match scanComments LineStart s with
  | Some LineStart => true
  | _ => false
  end.

End headers.

(** ** Stand-ins for the remaining collaborators *)

Module doubles.
Import unstructured kubernetes deletion generators.

(** The delete of the in-memory cluster: a missing resource is
    not-found, a marked call persists nothing. *)
Definition fakeDelete (gvr : GroupVersionResource) (ns name : string)
    (opts : DeleteOptions) (s : fake.Cluster) : option error * fake.Cluster :=
  match s !! fake.key gvr ns name with
  | None => (Some (APIStatus NotFound), s)
  | Some _ =>
      (None,
       if bool_decide (DryRunAll ∈ deleteDryRun opts) then s
       else delete (fake.key gvr ns name) s)
  end.

Definition deleter : DynamicDelete fake.Cluster :=
  {| DeleteResource := fakeDelete |}.

(** A decoder for the fields of an agent [delete_agent] prints. *)
Definition decodeAgent (obj : Object) : Result agenttypes.Agent :=
  OK {| agenttypes.APIVersion := GetAPIVersion obj;
        agenttypes.Kind := GetKind obj;
        agenttypes.Name := GetName obj;
        agenttypes.Namespace := GetNamespace obj;
        agenttypes.Spec :=
          {| agenttypes.Type_ := getNestedString obj ["spec"; "type"];
             agenttypes.Description :=
               getNestedString obj ["spec"; "description"];
             agenttypes.Declarative := None;
             agenttypes.A2A := None |};
        agenttypes.Status :=
          {| agenttypes.Ready := false; agenttypes.Accepted := false;
             agenttypes.StatusMessage := "" |} |}.

Definition agentDecoder : AgentDecoder :=
  {| unmarshalAgent := decodeAgent |}.

(** Argument decoders that know the empty array only. *)
Definition argumentDecoder : ArgumentDecoder :=
  {| unmarshalToolConfigs text :=
       if bool_decide (text = "[]") then OK []
       else Err (Errorf "json: cannot unmarshal" None);
     unmarshalSkills text :=
       if bool_decide (text = "[]") then OK []
       else Err (Errorf "json: cannot unmarshal" None);
     unmarshalArgs _ := [];
     int32 q :=
       (QArith_base.Qnum (Qcanon.this q)
        / Z.pos (QArith_base.Qden (Qcanon.this q)))%Z |}.

(** One tree the YAML of a resource decodes to. *)
Definition written (apiVersion kind name ns : string) (spec : Object)
  : Object :=
  list_to_map
    [("apiVersion", VStr apiVersion);
     ("kind", VStr kind);
     ("metadata", VMap (list_to_map
        [("name", VStr name); ("namespace", VStr ns);
         ("creationTimestamp", VNull)]));
     ("spec", VMap spec)].

End doubles.

(** * Properties *)

Import unstructured kubernetes tools recorder props.

(** ** Reading fields *)

Lemma getNestedString_top (obj : Object) (k : string) :
  getNestedString obj [k] =
    match obj !! k with Some (VStr s) => s | _ => "" end.
Proof.
  unfold getNestedString, NestedString; simpl.
  destruct (obj !! k) as [[]|]; reflexivity.
Qed.

Lemma GetKind_absent_or_empty (obj : Object) :
  obj !! "kind" = None ∨ obj !! "kind" = Some (VStr "") → GetKind obj = "".
Proof.
  unfold GetKind; rewrite getNestedString_top.
  intros [-> | ->]; reflexivity.
Qed.

(** ** The functions on the samples *)

Example gvrFromKind_unknown :
  gvrFromKind "Widget" = Err (Errorf "unknown kind: Widget" None).
Proof. reflexivity. Qed.

Example withNamespace_defaults :
  withNamespace (k8sClient samples.ts) samples.agentNoNamespace =
    samples.agentManifest "kagent".
Proof. vm_compute. reflexivity. Qed.

Example withNamespace_keeps :
  withNamespace (k8sClient samples.ts) (samples.agentManifest "prod") =
    samples.agentManifest "prod".
Proof. vm_compute. reflexivity. Qed.

Example stripServerManaged_agentLive :
  stripServerManaged (samples.agentLive "kagent" "41") =
    samples.agentManifest "kagent".
Proof. vm_compute. reflexivity. Qed.

(** A [metadata] that is no map: the setter gives up and the object is
    left as it was. *)
Example SetResourceVersion_scalar_metadata :
  SetResourceVersion {[ "metadata" := VStr "oops" ]} "7" =
    {[ "metadata" := VStr "oops" ]}.
Proof. vm_compute. reflexivity. Qed.

Example validate_modelConfigOllama :
  handleValidateManifest (dyn := fake.cluster) (json := fake.decoder)
    samples.ts samples.modelConfigOllama true samples.emptyCluster = [].
Proof. vm_compute. reflexivity. Qed.

Example validate_agentX_lenient :
  handleValidateManifest (dyn := fake.cluster) (json := fake.decoder)
    samples.ts samples.agentX false samples.emptyCluster =
    [{| Severity := "warning"; Field := "spec.declarative.modelConfig";
        Message := "ModelConfig 'missing-mc' not found in namespace. Ensure it exists before applying." |}].
Proof. vm_compute. reflexivity. Qed.

Example validate_widget :
  handleValidateManifest (dyn := fake.cluster) (json := fake.decoder)
    samples.ts samples.widget true samples.emptyCluster =
    [{| Severity := "warning"; Field := "kind";
        Message := "Unknown kind 'Widget'. Expected: Agent, ModelConfig, MCPServer, or RemoteMCPServer" |}].
Proof. vm_compute. reflexivity. Qed.

Example apply_stale_version_conflicts :
  Update (DynamicInterface := fake.cluster) AgentGVR "kagent"
    (samples.agentLive "kagent" "40") {| updateDryRun := [] |}
    (samples.clusterWith "kagent") =
    (Err (APIStatus Conflict), samples.clusterWith "kagent").
Proof. vm_compute. reflexivity. Qed.

Section Validator.
Context {S : Type} {dyn : DynamicInterface S} {json : JSONDecoder}.

(** The shape of the issue list for a manifest the code reads no kind
    from: the optional errors on [apiVersion] and [metadata.name] around
    the error on [kind], then the unknown-kind warning. *)
Lemma handleValidateManifest_no_kind (ts : ToolServer) (obj : Object)
    (strict : bool) (s : S) :
  GetKind obj = "" →
  handleValidateManifest ts obj strict s =
    (if bool_decide (GetAPIVersion obj = "")
     then [{| Severity := "error"; Field := "apiVersion";
              Message := "apiVersion is required" |}] else [])
    ++ [{| Severity := "error"; Field := "kind";
           Message := "kind is required" |}]
    ++ (if bool_decide (GetName obj = "")
        then [{| Severity := "error"; Field := "metadata.name";
                 Message := "metadata.name is required" |}] else [])
    ++ [{| Severity := "warning"; Field := "kind";
           Message := "Unknown kind ''. Expected: Agent, ModelConfig, MCPServer, or RemoteMCPServer" |}].
Proof.
  intros Hkind. unfold handleValidateManifest. rewrite Hkind.
  destruct (bool_decide (GetAPIVersion obj = ""));
    destruct (bool_decide (GetName obj = "")); reflexivity.
Qed.

(** C10: a manifest whose [kind] is absent or empty gets two issues on
    the field [kind]: the error "kind is required" and, because the
    empty kind reaches the default branch of the dispatch, the
    unknown-kind warning. *)
Theorem missing_kind_reported_twice (ts : ToolServer) (obj : Object)
    (strict : bool) (s : S) :
  obj !! "kind" = None ∨ obj !! "kind" = Some (VStr "") →
  filter (λ i, Field i = "kind") (handleValidateManifest ts obj strict s) =
    [{| Severity := "error"; Field := "kind";
        Message := "kind is required" |};
     {| Severity := "warning"; Field := "kind";
        Message := "Unknown kind ''. Expected: Agent, ModelConfig, MCPServer, or RemoteMCPServer" |}].
Proof.
  intros Hkind%GetKind_absent_or_empty.
  rewrite handleValidateManifest_no_kind by exact Hkind.
  destruct (bool_decide (GetAPIVersion obj = ""));
    destruct (bool_decide (GetName obj = "")); reflexivity.
Qed.

End Validator.

Lemma missing_kind_reported_twice_witness :
  (samples.noKind !! "kind" = None ∨ samples.noKind !! "kind" = Some (VStr "")) ∧
  filter (λ i, Field i = "kind")
    (handleValidateManifest (dyn := fake.cluster) (json := fake.decoder)
       samples.ts samples.noKind true samples.emptyCluster) =
    [{| Severity := "error"; Field := "kind";
        Message := "kind is required" |};
     {| Severity := "warning"; Field := "kind";
        Message := "Unknown kind ''. Expected: Agent, ModelConfig, MCPServer, or RemoteMCPServer" |}].
Proof.
  assert (H : samples.noKind !! "kind" = None ∨
              samples.noKind !! "kind" = Some (VStr ""))
    by (left; vm_compute; reflexivity).
  split; [exact H |].
  apply (missing_kind_reported_twice (dyn := fake.cluster) (json := fake.decoder)
           samples.ts samples.noKind true samples.emptyCluster H).
Defined.

Section ValidatorScenarios.
Context {S : Type} {dyn : DynamicInterface S} {json : JSONDecoder}.

(** C4: validating the declarative agent [x] (model config
    [missing-mc], system message [short], no description) with
    [strict = true], when the lookup of [missing-mc] fails, yields
    exactly three warnings, on [spec.declarative.modelConfig],
    [spec.declarative.systemMessage] and [spec.description], and no
    error. *)
Theorem agentX_strict_three_warnings (ts : ToolServer) (s : S) (e : error) :
  GetModelConfig (k8sClient ts) "missing-mc" s = Err e →
  let issues := handleValidateManifest ts samples.agentX true s in
  issues =
    [{| Severity := "warning"; Field := "spec.declarative.modelConfig";
        Message := "ModelConfig 'missing-mc' not found in namespace. Ensure it exists before applying." |};
     {| Severity := "warning"; Field := "spec.declarative.systemMessage";
        Message := "System message seems short. Consider providing more detailed instructions for the agent." |};
     {| Severity := "warning"; Field := "spec.description";
        Message := "Consider adding a description to help users understand the agent's purpose" |}]
  ∧ length (filter isWarning issues) = 3
  ∧ filter isError issues = [].
Proof.
  intros Hmc issues.
  assert (Hissues : issues =
    [{| Severity := "warning"; Field := "spec.declarative.modelConfig";
        Message := "ModelConfig 'missing-mc' not found in namespace. Ensure it exists before applying." |};
     {| Severity := "warning"; Field := "spec.declarative.systemMessage";
        Message := "System message seems short. Consider providing more detailed instructions for the agent." |};
     {| Severity := "warning"; Field := "spec.description";
        Message := "Consider adding a description to help users understand the agent's purpose" |}]).
  { subst issues. unfold handleValidateManifest, validateAgent.
    replace (GetAPIVersion samples.agentX) with "kagent.dev/v1alpha2"
      by (vm_compute; reflexivity).
    replace (GetKind samples.agentX) with "Agent"
      by (vm_compute; reflexivity).
    replace (GetName samples.agentX) with "x" by (vm_compute; reflexivity).
    replace (NestedString samples.agentX ["spec"; "type"])
      with ("Declarative", true) by (vm_compute; reflexivity).
    replace (NestedString samples.agentX
               ["spec"; "declarative"; "modelConfig"])
      with ("missing-mc", true) by (vm_compute; reflexivity).
    replace (NestedString samples.agentX
               ["spec"; "declarative"; "systemMessage"])
      with ("short", true) by (vm_compute; reflexivity).
    replace (NestedString samples.agentX ["spec"; "description"])
      with ("", false) by (vm_compute; reflexivity).
    simpl. rewrite Hmc. reflexivity. }
  rewrite Hissues. repeat split.
Qed.

(** The ModelConfig rules on a manifest whose provider is a non-empty
    string outside the enumeration, with model and secret present. *)
Lemma validateModelConfig_bad_provider (obj : Object) (strict : bool)
    (provider model secret : string) :
  NestedString obj ["spec"; "provider"] = (provider, true) →
  provider ≠ "" →
  provider ∉ ["OpenAI"; "AzureOpenAI"; "Anthropic"; "Gemini"; "Ollama"; "Custom"] →
  NestedString obj ["spec"; "model"] = (model, true) → model ≠ "" →
  NestedString obj ["spec"; "apiKeySecret"] = (secret, true) → secret ≠ "" →
  validateModelConfig obj strict = [invalidProvider provider].
Proof.
  intros Hp Hpne Hnotin Hm Hmne Hs Hsne. unfold validateModelConfig.
  rewrite Hp, Hm, Hs. cbv beta iota zeta.
  rewrite (bool_decide_eq_false_2 (provider = "")),
    (bool_decide_eq_false_2 (model = "")),
    (bool_decide_eq_false_2 (secret = "")) by assumption.
  assert (Hlook : (list_to_map
            [("OpenAI", true); ("AzureOpenAI", true); ("Anthropic", true);
             ("Gemini", true); ("Ollama", true); ("Custom", true)]
            : gmap string bool) !! provider = None).
  { apply not_elem_of_list_to_map_1. simpl. exact Hnotin. }
  rewrite Hlook. reflexivity.
Qed.

(** The RemoteMCPServer rules on a manifest with a well-formed url and
    a protocol that is neither empty nor one of the two accepted. *)
Lemma validateRemoteMCPServer_bad_protocol (obj : Object) (strict : bool)
    (url protocol : string) (found : bool) :
  NestedString obj ["spec"; "url"] = (url, true) → url ≠ "" →
  String.prefix "http://" url = true ∨ String.prefix "https://" url = true →
  NestedString obj ["spec"; "protocol"] = (protocol, found) →
  protocol ≠ "" → protocol ≠ "STREAMABLE_HTTP" → protocol ≠ "SSE" →
  validateRemoteMCPServer obj strict = [invalidProtocol].
Proof.
  intros Hu Hune Hpre Hp Hp1 Hp2 Hp3. unfold validateRemoteMCPServer.
  rewrite Hu, Hp. cbv beta iota zeta.
  rewrite (bool_decide_eq_false_2 (url = "")),
    (bool_decide_eq_false_2 (protocol = "")),
    (bool_decide_eq_false_2 (protocol = "STREAMABLE_HTTP")),
    (bool_decide_eq_false_2 (protocol = "SSE")) by assumption.
  destruct Hpre as [-> | ->]; simpl;
    [| rewrite andb_false_r]; reflexivity.
Qed.

(** C6: a ModelConfig whose [spec.provider] is ["Bogus"], with
    [spec.model] and [spec.apiKeySecret] present, yields exactly one
    issue, an error on [spec.provider]; a RemoteMCPServer whose
    [spec.protocol] is ["WS"], with a well-formed [spec.url], yields
    exactly one issue, an error on [spec.protocol].  This holds of the
    kind's rule set and, when [apiVersion] and [metadata.name] are
    present, of the whole validation. *)
Theorem enum_rejection (ts : ToolServer) (strict : bool) (s : S) :
  (∀ (obj : Object) (model secret : string),
      NestedString obj ["spec"; "provider"] = ("Bogus", true) →
      NestedString obj ["spec"; "model"] = (model, true) → model ≠ "" →
      NestedString obj ["spec"; "apiKeySecret"] = (secret, true) →
      secret ≠ "" →
      validateModelConfig obj strict = [invalidProvider "Bogus"]
      ∧ (GetKind obj = "ModelConfig" → GetAPIVersion obj ≠ "" →
         GetName obj ≠ "" →
         handleValidateManifest ts obj strict s = [invalidProvider "Bogus"]))
  ∧ (∀ (obj : Object) (url : string),
      NestedString obj ["spec"; "protocol"] = ("WS", true) →
      NestedString obj ["spec"; "url"] = (url, true) → url ≠ "" →
      String.prefix "http://" url = true ∨
        String.prefix "https://" url = true →
      validateRemoteMCPServer obj strict = [invalidProtocol]
      ∧ (GetKind obj = "RemoteMCPServer" → GetAPIVersion obj ≠ "" →
         GetName obj ≠ "" →
         handleValidateManifest ts obj strict s = [invalidProtocol])).
Proof.
  split.
  - intros obj model secret Hp Hm Hmne Hs Hsne.
    assert (Hrules : validateModelConfig obj strict = [invalidProvider "Bogus"]).
    { apply (validateModelConfig_bad_provider obj strict "Bogus" model secret);
        try assumption; [discriminate |].
      intros Hin. repeat (apply elem_of_cons in Hin as [Hin | Hin];
                          [discriminate Hin |]).
      by apply elem_of_nil in Hin. }
    split; [exact Hrules |].
    intros Hkind Hapi Hname. unfold handleValidateManifest.
    rewrite (bool_decide_eq_false_2 (GetAPIVersion obj = "")),
      (bool_decide_eq_false_2 (GetName obj = "")) by assumption.
    rewrite Hkind, Hrules. reflexivity.
  - intros obj url Hp Hu Hune Hpre.
    assert (Hrules : validateRemoteMCPServer obj strict = [invalidProtocol]).
    { apply (validateRemoteMCPServer_bad_protocol obj strict url "WS" true);
        try assumption; discriminate. }
    split; [exact Hrules |].
    intros Hkind Hapi Hname. unfold handleValidateManifest.
    rewrite (bool_decide_eq_false_2 (GetAPIVersion obj = "")),
      (bool_decide_eq_false_2 (GetName obj = "")) by assumption.
    rewrite Hkind, Hrules. reflexivity.
Qed.

End ValidatorScenarios.

Lemma agentX_strict_three_warnings_witness :
  GetModelConfig (dyn := fake.cluster) (json := fake.decoder)
    (k8sClient samples.ts) "missing-mc" samples.emptyCluster =
    Err (Errorf "failed to get model config missing-mc"
           (Some (APIStatus NotFound)))
  ∧ handleValidateManifest (dyn := fake.cluster) (json := fake.decoder)
      samples.ts samples.agentX true samples.emptyCluster =
      [{| Severity := "warning"; Field := "spec.declarative.modelConfig";
          Message := "ModelConfig 'missing-mc' not found in namespace. Ensure it exists before applying." |};
       shortSystemMessage; missingDescription].
Proof.
  assert (H : GetModelConfig (dyn := fake.cluster) (json := fake.decoder)
                (k8sClient samples.ts) "missing-mc" samples.emptyCluster =
              Err (Errorf "failed to get model config missing-mc"
                     (Some (APIStatus NotFound))))
    by (vm_compute; reflexivity).
  split; [exact H |].
  exact (proj1 (agentX_strict_three_warnings samples.ts samples.emptyCluster _ H)).
Defined.

Lemma enum_rejection_witness :
  handleValidateManifest (dyn := fake.cluster) (json := fake.decoder)
    samples.ts samples.modelConfigBogus true samples.emptyCluster =
    [invalidProvider "Bogus"]
  ∧ handleValidateManifest (dyn := fake.cluster) (json := fake.decoder)
      samples.ts samples.remoteWS true samples.emptyCluster =
      [invalidProtocol].
Proof.
  destruct (enum_rejection (dyn := fake.cluster) (json := fake.decoder)
              samples.ts true samples.emptyCluster) as [Hmc Hremote].
  split.
  - apply (Hmc samples.modelConfigBogus "gpt-4o" "openai-key");
      solve [vm_compute; reflexivity | discriminate].
  - apply (Hremote samples.remoteWS "https://mcp.example.com/mcp");
      solve [vm_compute; reflexivity | discriminate
            | right; vm_compute; reflexivity].
Defined.

(** ** Strict and lenient validation *)

(** Three of the four rule sets never read [strict]. *)
Lemma validateModelConfig_strict_irrelevant (obj : Object) (strict : bool) :
  validateModelConfig obj strict = validateModelConfig obj true.
Proof. reflexivity. Qed.

Lemma validateMCPServer_strict_irrelevant (obj : Object) (strict : bool) :
  validateMCPServer obj strict = validateMCPServer obj true.
Proof. reflexivity. Qed.

Lemma validateRemoteMCPServer_strict_irrelevant (obj : Object) (strict : bool) :
  validateRemoteMCPServer obj strict = validateRemoteMCPServer obj true.
Proof. reflexivity. Qed.

(** None of the issues of the three rule sets that never read [strict]
    is one of the two gated warnings. *)
Lemma validateModelConfig_not_gated (obj : Object) (strict : bool) :
  filter (λ j, negb (strictGated j)) (validateModelConfig obj strict) =
    validateModelConfig obj strict.
Proof.
  unfold validateModelConfig.
  destruct (NestedString obj ["spec"; "provider"]) as [provider f1].
  destruct (NestedString obj ["spec"; "model"]) as [model f2].
  destruct (NestedString obj ["spec"; "apiKeySecret"]) as [secret f3].
  cbv beta iota zeta.
  match goal with
  | |- context [negb (default false ?known)] =>
      generalize (negb (default false known)); intros unknown
  end.
  destruct (negb f1 || bool_decide (provider = ""));
    destruct unknown;
    destruct (negb f2 || bool_decide (model = ""));
    destruct (negb f3 || bool_decide (secret = ""));
    destruct (negb (bool_decide (provider = "Ollama"))); reflexivity.
Qed.

Lemma validateMCPServer_not_gated (obj : Object) (strict : bool) :
  filter (λ j, negb (strictGated j)) (validateMCPServer obj strict) =
    validateMCPServer obj strict.
Proof.
  unfold validateMCPServer.
  destruct (NestedString obj ["spec"; "deployment"; "image"]) as [image f1].
  destruct (NestedString obj ["spec"; "transportType"]) as [transport f2].
  cbv beta iota zeta.
  destruct (negb f1 || bool_decide (image = ""));
    destruct (negb (bool_decide (transport = ""))
              && negb (bool_decide (transport = "stdio"))); reflexivity.
Qed.

Lemma validateRemoteMCPServer_not_gated (obj : Object) (strict : bool) :
  filter (λ j, negb (strictGated j)) (validateRemoteMCPServer obj strict) =
    validateRemoteMCPServer obj strict.
Proof.
  unfold validateRemoteMCPServer.
  destruct (NestedString obj ["spec"; "url"]) as [url f1].
  destruct (NestedString obj ["spec"; "protocol"]) as [protocol f2].
  cbv beta iota zeta.
  destruct (negb f1 || bool_decide (url = ""));
    destruct (negb (String.prefix "http://" url)
              && negb (String.prefix "https://" url));
    destruct (negb (bool_decide (protocol = ""))
              && negb (bool_decide (protocol = "STREAMABLE_HTTP"))
              && negb (bool_decide (protocol = "SSE"))); reflexivity.
Qed.

Section Strictness.
Context {S : Type} {dyn : DynamicInterface S} {json : JSONDecoder}.

(** The lenient issue list of an agent is the strict one without the
    two gated warnings. *)
Lemma validateAgent_lenient (ts : ToolServer) (obj : Object) (s : S) :
  validateAgent ts obj false s =
    filter (λ j, negb (strictGated j)) (validateAgent ts obj true s).
Proof.
  unfold validateAgent.
  destruct (NestedString obj ["spec"; "type"]) as [specType f1].
  destruct (NestedString obj ["spec"; "declarative"; "modelConfig"])
    as [modelConfig f2].
  destruct (NestedString obj ["spec"; "declarative"; "systemMessage"])
    as [systemMessage f3].
  destruct (NestedString obj ["spec"; "description"]) as [description f4].
  cbv beta iota zeta.
  destruct (negb f1 || bool_decide (specType = ""));
    destruct (bool_decide (specType = "Declarative"));
    destruct (negb f2 || bool_decide (modelConfig = ""));
    destruct (GetModelConfig (k8sClient ts) modelConfig s);
    destruct (negb f3 || bool_decide (systemMessage = ""));
    destruct (String.length systemMessage <? 100)%nat;
    destruct (bool_decide (description = "")); reflexivity.
Qed.

(** The errors of the global checks are not gated. *)
Lemma handleValidateManifest_lenient (ts : ToolServer) (obj : Object) (s : S) :
  handleValidateManifest ts obj false s =
    filter (λ j, negb (strictGated j)) (handleValidateManifest ts obj true s).
Proof.
  unfold handleValidateManifest.
  repeat case_bool_decide; rewrite ?list.filter_app;
    rewrite <- ?validateAgent_lenient,
      ?validateModelConfig_not_gated, ?validateMCPServer_not_gated,
      ?validateRemoteMCPServer_not_gated; reflexivity.
Qed.

(** C5: on the same manifest and cluster, the issues at
    [strict = false] are the issues at [strict = true] without the
    gated warnings: the lenient list is the strict one filtered, hence a
    sublist of it in the same order; every issue that disappears is one
    of the two gated warnings; the error-severity issues are the same. *)
Theorem strict_monotone (ts : ToolServer) (obj : Object) (s : S) :
  let strictIssues := handleValidateManifest ts obj true s in
  let lenientIssues := handleValidateManifest ts obj false s in
  lenientIssues = filter (λ i, negb (strictGated i)) strictIssues
  ∧ sublist lenientIssues strictIssues
  ∧ (∀ i, i ∈ lenientIssues → i ∈ strictIssues)
  ∧ (∀ i, i ∈ strictIssues → i ∉ lenientIssues →
       i = shortSystemMessage ∨ i = missingDescription)
  ∧ filter isError lenientIssues = filter isError strictIssues.
Proof.
  intros strictIssues lenientIssues.
  assert (Hfilter : lenientIssues =
            filter (λ i, negb (strictGated i)) strictIssues)
    by apply handleValidateManifest_lenient.
  split; [exact Hfilter |]. rewrite Hfilter.
  split; [apply sublist_filter |].
  split; [intros i Hi; by apply list_elem_of_filter in Hi as [_ Hi] |].
  split.
  - intros i Hin Hnot.
    destruct (strictGated i) eqn:Hg.
    + unfold strictGated, issue_eqb in Hg.
      destruct i as [sev fld msg]; simpl in Hg.
      apply orb_true_iff in Hg as [Hg | Hg];
        [left | right];
        apply andb_true_iff in Hg as [Hg Hm];
        apply andb_true_iff in Hg as [Hs Hf];
        apply bool_decide_eq_true_1 in Hm, Hs, Hf; subst; reflexivity.
    + exfalso. apply Hnot. apply list_elem_of_filter.
      split; [rewrite Hg; exact I | exact Hin].
  - rewrite list_filter_filter. apply list_filter_iff.
    intros [sev fld msg]. unfold isError, strictGated, issue_eqb; simpl.
    split; [intros [H _]; exact H |].
    intros H; split; [exact H |].
    apply bool_decide_unpack in H; subst sev. exact I.
Qed.

End Strictness.

(** ** Apply: create or update *)

Section ApplyProperties.
Context {S : Type} {dyn : DynamicInterface S}.

(** The logging client changes neither the result nor the cluster. *)
Lemma ApplyRecorded_erase (c : Client) (manifest : Object) (dryRun : bool)
    (s : S) :
  (ApplyRecorded c manifest dryRun s).1 = (Apply c manifest dryRun s).1
  ∧ (ApplyRecorded c manifest dryRun s).2.1 = (Apply c manifest dryRun s).2.
Proof.
  unfold ApplyRecorded, Apply.
  destruct (gvrFromObject manifest) as [gvr | e]; [| split; reflexivity].
  cbn [Get Create Update recording fst snd].
  destruct (Get gvr _ _ s) as [existing | e].
  - destruct (Update gvr _ _ _ s) as [[updated | e] s']; split; reflexivity.
  - destruct (Create gvr _ _ _ s) as [[created | e'] s']; split; reflexivity.
Qed.

(** The create branch: taken on every error of the fetch. *)
Lemma ApplyRecorded_fetch_error (c : Client) (manifest : Object)
    (dryRun : bool) (s : S) (gvr : GroupVersionResource) (e : error) :
  gvrFromObject manifest = OK gvr →
  let obj := withNamespace c manifest in
  let opts := {| createDryRun := dryRunOption dryRun |} in
  Get gvr (GetNamespace obj) (GetName obj) s = Err e →
  ApplyRecorded c manifest dryRun s =
    (applyOutcome "created" "failed to create resource" obj dryRun
       (Create gvr (GetNamespace obj) obj opts s).1,
     ((Create gvr (GetNamespace obj) obj opts s).2,
      [CreateCall gvr (GetNamespace obj) obj opts])).
Proof.
  intros Hgvr obj opts Hget. unfold ApplyRecorded, Apply.
  rewrite Hgvr. cbn [Get Create Update recording fst snd].
  fold (withNamespace c manifest). fold obj. rewrite Hget.
  fold (dryRunOption dryRun). fold opts.
  destruct (Create gvr _ obj opts s) as [[created | e'] s']; reflexivity.
Qed.

(** The update branch: taken when the fetch succeeds. *)
Lemma ApplyRecorded_fetched (c : Client) (manifest : Object)
    (dryRun : bool) (s : S) (gvr : GroupVersionResource)
    (existing : Object) :
  gvrFromObject manifest = OK gvr →
  let obj := withNamespace c manifest in
  let obj' := SetResourceVersion obj (GetResourceVersion existing) in
  let opts := {| updateDryRun := dryRunOption dryRun |} in
  Get gvr (GetNamespace obj) (GetName obj) s = OK existing →
  ApplyRecorded c manifest dryRun s =
    (applyOutcome "updated" "failed to update resource" obj' dryRun
       (Update gvr (GetNamespace obj') obj' opts s).1,
     ((Update gvr (GetNamespace obj') obj' opts s).2,
      [UpdateCall gvr (GetNamespace obj') obj' opts])).
Proof.
  intros Hgvr obj obj' opts Hget. unfold ApplyRecorded, Apply.
  rewrite Hgvr. cbn [Get Create Update recording fst snd].
  fold (withNamespace c manifest). fold obj. rewrite Hget.
  fold obj'. fold (dryRunOption dryRun). fold opts.
  destruct (Update gvr _ obj' opts s) as [[updated | e'] s']; reflexivity.
Qed.

End ApplyProperties.

(** ** The concurrency token *)

Lemma GetName_metadata (obj : Object) :
  GetName obj ≠ "" → ∃ meta, obj !! "metadata" = Some (VMap meta).
Proof.
  unfold GetName, getNestedString, NestedString; simpl.
  destruct (obj !! "metadata") as [[| | | | | meta] |];
    try (intros H; exfalso; apply H; reflexivity).
  intros _. exists meta. reflexivity.
Qed.

Lemma withNamespace_metadata (c : Client) (manifest : Object) :
  (∃ meta, manifest !! "metadata" = Some (VMap meta)) →
  ∃ meta, withNamespace c manifest !! "metadata" = Some (VMap meta).
Proof.
  intros [meta Hmeta]. unfold withNamespace, SetNamespace.
  repeat case_decide; simpl; rewrite ?Hmeta;
    solve [eexists; apply lookup_insert_eq | eexists; reflexivity].
Qed.

Lemma GetResourceVersion_SetResourceVersion (obj : Object) (rv : string) :
  (∃ meta, obj !! "metadata" = Some (VMap meta)) →
  GetResourceVersion (SetResourceVersion obj rv) = rv.
Proof.
  intros [meta Hmeta].
  unfold SetResourceVersion, GetResourceVersion, getNestedString, NestedString.
  case_decide as Hrv; simpl; rewrite Hmeta, lookup_insert_eq.
  - rewrite lookup_delete_eq. symmetry. exact Hrv.
  - rewrite lookup_insert_eq. reflexivity.
Qed.

Lemma applyOutcome_agree (action failure : string) (obj : Object)
    (r r' : Result Object) (dry wet : ApplyResult) :
  applyOutcome action failure obj true r = OK dry →
  applyOutcome action failure obj false r' = OK wet →
  Action dry = Action wet ∧ Kind dry = Kind wet ∧ Name dry = Name wet
  ∧ Namespace dry = Namespace wet ∧ DryRun dry = true ∧ DryRun wet = false.
Proof.
  destruct r, r'; simpl; try discriminate.
  intros [= <-] [= <-]. repeat split.
Qed.

Section ApplyClaims.
Context {S : Type} {dyn : DynamicInterface S}.


(** C8: whatever error the fetch returns, [Apply] goes on to the create
    branch: it submits one create of the manifest as it stands after
    the namespace step (no version copied), reports [created] when the
    store accepts it, and otherwise fails with the wrapped error of the
    create, never with the error of the fetch. *)
Theorem apply_fetch_error_creates (c : Client) (manifest : Object)
    (dryRun : bool) (s : S) (gvr : GroupVersionResource) (e : error) :
  gvrFromObject manifest = OK gvr →
  let obj := withNamespace c manifest in
  let opts := {| createDryRun := dryRunOption dryRun |} in
  Get gvr (GetNamespace obj) (GetName obj) s = Err e →
  (ApplyRecorded c manifest dryRun s).2.2 =
    [CreateCall gvr (GetNamespace obj) obj opts]
  ∧ (∀ created, (Create gvr (GetNamespace obj) obj opts s).1 = OK created →
       (Apply c manifest dryRun s).1 =
         OK {| Action := "created"; Kind := GetKind obj;
               Name := GetName obj; Namespace := GetNamespace obj;
               DryRun := dryRun |})
  ∧ (∀ e', (Create gvr (GetNamespace obj) obj opts s).1 = Err e' →
       (Apply c manifest dryRun s).1 =
         Err (Errorf "failed to create resource" (Some e')))
  ∧ (Apply c manifest dryRun s).2 = (Create gvr (GetNamespace obj) obj opts s).2.
Proof.
  intros Hgvr obj opts Hget.
  pose proof (ApplyRecorded_fetch_error c manifest dryRun s gvr e Hgvr Hget)
    as Hrun.
  destruct (ApplyRecorded_erase c manifest dryRun s) as [Hres Hstate].
  rewrite <- Hres, <- Hstate, Hrun. cbn [fst snd]. fold obj opts.
  split; [reflexivity |].
  split; [intros created -> ; reflexivity |].
  split; [intros e' -> ; reflexivity | reflexivity].
Qed.

(** C7: with [dryRun = true] [Apply] issues its one store call marked
    [DryRun: All]: a create of the manifest when the fetch fails, an
    update of the manifest carrying the fetched version when the fetch
    answers a resource; only a manifest whose kind does not resolve is
    refused without a call.  So every store call submitted carries the
    mark, and against a store that honours it the cluster is left as it
    was; the call is the one the run without dry-run submits (same verb,
    identity and object), and when both runs succeed the outcomes agree
    on action, kind, name and namespace, the dry one carrying
    [DryRun = true]. *)
Theorem apply_dry_run (c : Client) (manifest : Object) (s : S) :
  (∀ gvr, gvrFromObject manifest = OK gvr →
     let obj := withNamespace c manifest in
     match Get gvr (GetNamespace obj) (GetName obj) s with
     | Err _ =>
         let opts := {| createDryRun := [DryRunAll] |} in
         ApplyRecorded c manifest true s =
           (applyOutcome "created" "failed to create resource" obj true
              (Create gvr (GetNamespace obj) obj opts s).1,
            ((Create gvr (GetNamespace obj) obj opts s).2,
             [CreateCall gvr (GetNamespace obj) obj opts]))
     | OK existing =>
         let obj' := SetResourceVersion obj (GetResourceVersion existing) in
         let opts := {| updateDryRun := [DryRunAll] |} in
         ApplyRecorded c manifest true s =
           (applyOutcome "updated" "failed to update resource" obj' true
              (Update gvr (GetNamespace obj') obj' opts s).1,
            ((Update gvr (GetNamespace obj') obj' opts s).2,
             [UpdateCall gvr (GetNamespace obj') obj' opts]))
     end)
  ∧ (∀ e, gvrFromObject manifest = Err e →
       ApplyRecorded c manifest true s = (Err e, (s, [])))
  ∧ (∀ call, call ∈ (ApplyRecorded c manifest true s).2.2 →
       callDryRun call = [DryRunAll])
  ∧ (honoursDryRun dyn → (Apply c manifest true s).2 = s)
  ∧ callTarget <$> (ApplyRecorded c manifest true s).2.2 =
      callTarget <$> (ApplyRecorded c manifest false s).2.2
  ∧ (∀ dry wet,
       (Apply c manifest true s).1 = OK dry →
       (Apply c manifest false s).1 = OK wet →
       Action dry = Action wet ∧ Kind dry = Kind wet ∧ Name dry = Name wet
       ∧ Namespace dry = Namespace wet
       ∧ DryRun dry = true ∧ DryRun wet = false).
Proof.
  split; [| split].
  { intros gvr Hgvr obj.
    destruct (Get gvr (GetNamespace obj) (GetName obj) s)
      as [existing | e] eqn:Hget.
    - exact (ApplyRecorded_fetched c manifest true s gvr existing Hgvr Hget).
    - exact (ApplyRecorded_fetch_error c manifest true s gvr e Hgvr Hget). }
  { intros e Hgvr. unfold ApplyRecorded, Apply. rewrite Hgvr. reflexivity. }
  destruct (ApplyRecorded_erase c manifest true s) as [Hres Hstate].
  destruct (ApplyRecorded_erase c manifest false s) as [Hres' _].
  rewrite <- Hres, <- Hres', <- Hstate. clear Hres Hres' Hstate.
  destruct (gvrFromObject manifest) as [gvr | e] eqn:Hgvr.
  - destruct (Get gvr (GetNamespace (withNamespace c manifest))
                (GetName (withNamespace c manifest)) s)
      as [existing | e] eqn:Hget.
    + rewrite !(ApplyRecorded_fetched c manifest _ s gvr existing Hgvr Hget).
      cbn [fst snd]. split; [| split; [| split]].
      * intros call ->%list_elem_of_singleton. reflexivity.
      * intros [_ Hupdate]. apply Hupdate. simpl. apply list_elem_of_here.
      * reflexivity.
      * intros dry wet. apply applyOutcome_agree.
    + rewrite !(ApplyRecorded_fetch_error c manifest _ s gvr e Hgvr Hget).
      cbn [fst snd]. split; [| split; [| split]].
      * intros call ->%list_elem_of_singleton. reflexivity.
      * intros [Hcreate _]. apply Hcreate. simpl. apply list_elem_of_here.
      * reflexivity.
      * intros dry wet. apply applyOutcome_agree.
  - unfold ApplyRecorded, Apply. rewrite Hgvr. cbn [fst snd].
    split; [| split; [| split]]; try reflexivity; try discriminate.
    intros call Hcall. by apply elem_of_nil in Hcall.
Qed.

End ApplyClaims.

(** The in-memory cluster honours the dry-run mark. *)
Lemma fake_cluster_honoursDryRun : honoursDryRun fake.cluster.
Proof.
  split; intros gvr ns obj opts s Hdry; simpl.
  - unfold fake.fakeCreate.
    destruct (s !! fake.key gvr ns (GetName obj)); [reflexivity |].
    simpl. rewrite bool_decide_eq_true_2 by exact Hdry. reflexivity.
  - unfold fake.fakeUpdate.
    destruct (s !! fake.key gvr ns (GetName obj)); [| reflexivity].
    case_bool_decide; [| reflexivity].
    simpl. rewrite bool_decide_eq_true_2 by exact Hdry. reflexivity.
Qed.


Lemma apply_fetch_error_creates_witness :
  Get (DynamicInterface := fake.failingReads Forbidden) AgentGVR "kagent" "x"
    (samples.clusterWith "prod") = Err (APIStatus Forbidden)
  ∧ (Apply (dyn := fake.failingReads Forbidden) (k8sClient samples.ts)
       samples.agentNoNamespace false (samples.clusterWith "prod")).1 =
      OK {| Action := "created"; Kind := "Agent"; Name := "x";
            Namespace := "kagent"; DryRun := false |}.
Proof.
  assert (Hgvr : gvrFromObject samples.agentNoNamespace = OK AgentGVR)
    by (vm_compute; reflexivity).
  assert (Hget : Get (DynamicInterface := fake.failingReads Forbidden) AgentGVR
                   (GetNamespace (withNamespace (k8sClient samples.ts)
                                    samples.agentNoNamespace))
                   (GetName (withNamespace (k8sClient samples.ts)
                               samples.agentNoNamespace))
                   (samples.clusterWith "prod") = Err (APIStatus Forbidden))
    by reflexivity.
  split; [reflexivity |].
  destruct (apply_fetch_error_creates (dyn := fake.failingReads Forbidden)
              (k8sClient samples.ts) samples.agentNoNamespace false
              (samples.clusterWith "prod") AgentGVR _ Hgvr Hget)
    as (_ & Hcreated & _ & _).
  apply (Hcreated (samples.agentManifest "kagent")).
  vm_compute. reflexivity.
Defined.

Lemma apply_dry_run_witness :
  honoursDryRun fake.cluster
  ∧ (ApplyRecorded (dyn := fake.cluster) (k8sClient samples.ts)
       samples.agentNoNamespace true (samples.clusterWith "kagent")).2.2 =
      [UpdateCall AgentGVR "kagent"
         (SetResourceVersion (samples.agentManifest "kagent") "41")
         {| updateDryRun := [DryRunAll] |}]
  ∧ (ApplyRecorded (dyn := fake.cluster) (k8sClient samples.ts)
       samples.agentNoNamespace true samples.emptyCluster).2.2 =
      [CreateCall AgentGVR "kagent" (samples.agentManifest "kagent")
         {| createDryRun := [DryRunAll] |}]
  ∧ (Apply (dyn := fake.cluster) (k8sClient samples.ts)
       samples.agentNoNamespace true (samples.clusterWith "kagent")).2 =
      samples.clusterWith "kagent"
  ∧ (Apply (dyn := fake.cluster) (k8sClient samples.ts)
       samples.agentNoNamespace true (samples.clusterWith "kagent")).1 =
      OK {| Action := "updated"; Kind := "Agent"; Name := "x";
            Namespace := "kagent"; DryRun := true |}
  ∧ (Apply (dyn := fake.cluster) (k8sClient samples.ts)
       samples.agentNoNamespace false (samples.clusterWith "kagent")).1 =
      OK {| Action := "updated"; Kind := "Agent"; Name := "x";
            Namespace := "kagent"; DryRun := false |}.
Proof.
  assert (Hgvr : gvrFromObject samples.agentNoNamespace = OK AgentGVR)
    by (vm_compute; reflexivity).
  destruct (apply_dry_run (dyn := fake.cluster) (k8sClient samples.ts)
              samples.agentNoNamespace (samples.clusterWith "kagent"))
    as (Hupdate & _ & _ & Hframe & _ & _).
  destruct (apply_dry_run (dyn := fake.cluster) (k8sClient samples.ts)
              samples.agentNoNamespace samples.emptyCluster)
    as (Hcreate & _ & _ & _ & _ & _).
  specialize (Hupdate AgentGVR Hgvr). specialize (Hcreate AgentGVR Hgvr).
  cbv zeta in Hupdate, Hcreate.
  assert (Hlive : Get (DynamicInterface := fake.cluster) AgentGVR
                    (GetNamespace (withNamespace (k8sClient samples.ts)
                                     samples.agentNoNamespace))
                    (GetName (withNamespace (k8sClient samples.ts)
                                samples.agentNoNamespace))
                    (samples.clusterWith "kagent") =
                  OK (samples.agentLive "kagent" "41"))
    by (vm_compute; reflexivity).
  assert (Hnone : Get (DynamicInterface := fake.cluster) AgentGVR
                    (GetNamespace (withNamespace (k8sClient samples.ts)
                                     samples.agentNoNamespace))
                    (GetName (withNamespace (k8sClient samples.ts)
                                samples.agentNoNamespace))
                    samples.emptyCluster = Err (APIStatus NotFound))
    by (vm_compute; reflexivity).
  rewrite Hlive in Hupdate. rewrite Hnone in Hcreate.
  assert (Hdry : (Apply (dyn := fake.cluster) (k8sClient samples.ts)
             samples.agentNoNamespace true (samples.clusterWith "kagent")).1 =
            OK {| Action := "updated"; Kind := "Agent"; Name := "x";
                  Namespace := "kagent"; DryRun := true |})
    by (vm_compute; reflexivity).
  assert (Hwet : (Apply (dyn := fake.cluster) (k8sClient samples.ts)
             samples.agentNoNamespace false (samples.clusterWith "kagent")).1 =
            OK {| Action := "updated"; Kind := "Agent"; Name := "x";
                  Namespace := "kagent"; DryRun := false |})
    by (vm_compute; reflexivity).
  split; [exact fake_cluster_honoursDryRun |].
  split; [rewrite Hupdate; vm_compute; reflexivity |].
  split; [rewrite Hcreate; vm_compute; reflexivity |].
  split; [exact (Hframe fake_cluster_honoursDryRun) |].
  split; [exact Hdry | exact Hwet].
Defined.

(** ** Diff: what is stripped and what is compared *)

(** The loop that copies every key but [status] deletes [status]. *)
Lemma proposedClean_delete (obj : Object) :
  filter (λ kv : string * value, kv.1 ≠ "status") obj = delete "status" obj.
Proof.
  apply map_eq. intros k.
  destruct (decide (k = "status")) as [-> | Hk].
  - rewrite lookup_delete_eq. apply map_lookup_filter_None. right.
    intros x _ Hne. apply Hne. reflexivity.
  - rewrite lookup_delete_ne by congruence.
    destruct (obj !! k) as [x |] eqn:Hx.
    + apply map_lookup_filter_Some. split; [exact Hx | exact Hk].
    + apply map_lookup_filter_None. left. exact Hx.
Qed.

(** Removing a metadata field the object does not carry changes
    nothing. *)
Lemma RemoveNestedField_absent (obj : Object) (field : string) :
  NestedFieldNoCopy (VMap obj) ["metadata"; field] = None →
  RemoveNestedField obj ["metadata"; field] = obj.
Proof.
  simpl. destruct (obj !! "metadata") as [[| | | | | meta] |] eqn:Hmeta;
    try reflexivity.
  destruct (meta !! field) eqn:Hfield; [discriminate |].
  intros _. rewrite delete_id by exact Hfield.
  apply insert_id. exact Hmeta.
Qed.

Lemma NestedFieldNoCopy_delete_status (obj : Object) (field : string) :
  NestedFieldNoCopy (VMap (delete "status" obj)) ["metadata"; field] =
    NestedFieldNoCopy (VMap obj) ["metadata"; field].
Proof. simpl. rewrite lookup_delete_ne by discriminate. reflexivity. Qed.

(** On a manifest without server-managed metadata the stripping of
    [GetCurrentState] removes [status] and nothing else. *)
Lemma stripServerManaged_user_manifest (obj : Object) :
  carriesNoServerMetadata obj →
  stripServerManaged obj = delete "status" obj.
Proof.
  intros Hnone. unfold stripServerManaged.
  assert (Hfield : ∀ field, field ∈ serverManagedMetadata →
            RemoveNestedField (delete "status" obj) ["metadata"; field] =
              delete "status" obj).
  { intros field Hin. apply RemoveNestedField_absent.
    rewrite NestedFieldNoCopy_delete_status. apply Hnone, Hin. }
  cbv zeta.
  rewrite (Hfield "creationTimestamp"), (Hfield "generation"),
    (Hfield "resourceVersion"), (Hfield "uid"), (Hfield "managedFields");
    [reflexivity | | | | |];
    unfold serverManagedMetadata; set_solver.
Qed.

Section DiffClaims.
Context {S : Type} {dyn : DynamicInterface S}.

(** What [handleDiffManifest] answers once the fetch has succeeded. *)
Lemma handleDiffManifest_fetched (ts : ToolServer) (obj live : Object)
    (s : S) (gvr : GroupVersionResource) :
  gvrFromKind (GetKind obj) = OK gvr →
  Get gvr (namespace (k8sClient ts)) (GetName obj) s = OK live →
  handleDiffManifest ts obj s =
    if bool_decide (stripServerManaged live = delete "status" obj)
    then NoChanges (GetKind obj) (GetName obj)
    else Changes (GetKind obj) (GetName obj)
           (stripServerManaged live) (delete "status" obj).
Proof.
  intros Hgvr Hget. unfold handleDiffManifest, GetCurrentState, cmpDiffEmpty.
  rewrite Hgvr, Hget, proposedClean_delete. reflexivity.
Qed.


(** C9: every error of the fetch, from an unknown kind to any failure
    of the store's read, makes [handleDiffManifest] answer "new
    resource", the answer it gives for a resource that does not exist;
    no error reaches the caller. *)
Theorem diff_fetch_error_is_new (ts : ToolServer) (obj : Object) (s : S) :
  (∀ e, gvrFromKind (GetKind obj) = Err e →
     handleDiffManifest ts obj s =
       NewResource (GetKind obj) (GetName obj) obj)
  ∧ (∀ gvr e, gvrFromKind (GetKind obj) = OK gvr →
       Get gvr (namespace (k8sClient ts)) (GetName obj) s = Err e →
       handleDiffManifest ts obj s =
         NewResource (GetKind obj) (GetName obj) obj)
  ∧ (∀ e, GetCurrentState (k8sClient ts) (GetKind obj) (GetName obj) s =
            Err e →
       handleDiffManifest ts obj s =
         NewResource (GetKind obj) (GetName obj) obj).
Proof.
  unfold handleDiffManifest, GetCurrentState.
  split; [| split].
  - intros e ->. reflexivity.
  - intros gvr e -> ->. reflexivity.
  - intros e Hstate.
    destruct (gvrFromKind (GetKind obj)) as [gvr |]; [| reflexivity].
    destruct (Get gvr _ _ s); [discriminate | reflexivity].
Qed.

End DiffClaims.

Lemma agentManifest_carriesNoServerMetadata (ns : string) :
  carriesNoServerMetadata (samples.agentManifest ns).
Proof.
  intros field Hin. unfold serverManagedMetadata in Hin.
  repeat (apply elem_of_cons in Hin as [-> | Hin]; [reflexivity |]).
  by apply elem_of_nil in Hin.
Qed.



Lemma diff_fetch_error_is_new_witness :
  handleDiffManifest (dyn := fake.cluster) samples.ts samples.widget
    samples.emptyCluster = NewResource "Widget" "w" samples.widget
  ∧ handleDiffManifest (dyn := fake.failingReads ServerTimeout) samples.ts
      (samples.agentManifest "kagent") (samples.clusterWith "kagent") =
      NewResource "Agent" "x" (samples.agentManifest "kagent").
Proof.
  split.
  - destruct (diff_fetch_error_is_new (dyn := fake.cluster) samples.ts
                samples.widget samples.emptyCluster) as (Hkind & _ & _).
    apply (Hkind (Errorf "unknown kind: Widget" None)).
    vm_compute. reflexivity.
  - destruct (diff_fetch_error_is_new (dyn := fake.failingReads ServerTimeout)
                samples.ts (samples.agentManifest "kagent")
                (samples.clusterWith "kagent")) as (_ & Hread & _).
    apply (Hread AgentGVR (APIStatus ServerTimeout)).
    + vm_compute. reflexivity.
    + reflexivity.
Defined.

(** C3 at a failing input: the tool server is configured for namespace
    [kagent], the manifest names namespace [prod], and agent [x] exists
    in [prod].  [handleDiffManifest] fetches under the configured
    namespace and answers "new resource", although the resource exists
    under the manifest's own identity and [Apply] finds and updates
    it. *)
Theorem diff_fetches_configured_namespace :
  namespace (k8sClient samples.ts) = "kagent"
  ∧ GetNamespace (samples.agentManifest "prod") = "prod"
  ∧ Get (DynamicInterface := fake.cluster) AgentGVR "prod" "x"
      (samples.clusterWith "prod") = OK (samples.agentLive "prod" "41")
  ∧ handleDiffManifest (dyn := fake.cluster) samples.ts
      (samples.agentManifest "prod") (samples.clusterWith "prod") =
      NewResource "Agent" "x" (samples.agentManifest "prod")
  ∧ (Apply (dyn := fake.cluster) (k8sClient samples.ts)
       (samples.agentManifest "prod") true (samples.clusterWith "prod")).1 =
      OK {| Action := "updated"; Kind := "Agent"; Name := "x";
            Namespace := "prod"; DryRun := true |}.
Proof. repeat split; vm_compute; reflexivity. Qed.

(** * Further properties of the validator *)

Lemma NestedString_empty (obj : Object) (fields : list string) (s : string)
    (found : bool) :
  NestedString obj fields = (s, found) →
  getNestedString obj fields = s
  ∧ (negb found || bool_decide (s = "")) = bool_decide (s = "").
Proof.
  unfold getNestedString, NestedString.
  destruct (NestedFieldNoCopy (VMap obj) fields) as [[] |];
    intros [= <- <-]; split; reflexivity.
Qed.

Lemma validProviders_lookup (provider : string) :
  default false
    ((list_to_map
        [("OpenAI", true); ("AzureOpenAI", true); ("Anthropic", true);
         ("Gemini", true); ("Ollama", true); ("Custom", true)]
      : gmap string bool) !! provider) =
    bool_decide
      (provider ∈ ["OpenAI"; "AzureOpenAI"; "Anthropic"; "Gemini"; "Ollama";
                   "Custom"]).
Proof.
  case_bool_decide as Hin.
  - repeat (apply elem_of_cons in Hin as [-> | Hin]; [reflexivity |]).
    by apply elem_of_nil in Hin.
  - rewrite (not_elem_of_list_to_map_1 _ provider); [reflexivity |].
    exact Hin.
Qed.

(** X1.  The ModelConfig rules pass without an issue exactly when the provider
    is one of the six, the model is set, and the secret is set or the
    provider is Ollama. *)
Theorem validateModelConfig_clean (obj : Object) (strict : bool) :
  validateModelConfig obj strict = [] ↔
    getNestedString obj ["spec"; "provider"] ∈
      ["OpenAI"; "AzureOpenAI"; "Anthropic"; "Gemini"; "Ollama"; "Custom"]
    ∧ getNestedString obj ["spec"; "model"] ≠ ""
    ∧ (getNestedString obj ["spec"; "apiKeySecret"] ≠ ""
       ∨ getNestedString obj ["spec"; "provider"] = "Ollama").
Proof.
  unfold validateModelConfig.
  destruct (NestedString obj ["spec"; "provider"]) as [provider f1] eqn:Hp.
  destruct (NestedString obj ["spec"; "model"]) as [model f2] eqn:Hm.
  destruct (NestedString obj ["spec"; "apiKeySecret"]) as [secret f3] eqn:Hs.
  apply NestedString_empty in Hp as [Hp ->], Hm as [Hm ->], Hs as [Hs ->].
  rewrite Hp, Hm, Hs. clear Hp Hm Hs.
  cbv beta iota zeta. rewrite validProviders_lookup.
  repeat case_bool_decide; simpl; subst;
    split; try discriminate; try (intros _; repeat split; tauto);
    try (intros (? & ? & [? | ?]); congruence);
    try (intros (Hin & _); exfalso;
         repeat (apply elem_of_cons in Hin as [Hin | Hin];
                 [discriminate Hin |]);
         by apply elem_of_nil in Hin).
Qed.

(** X2.  The RemoteMCPServer rules pass without an issue exactly when the url
    starts with [http://] or [https://] and the protocol is unset (or
    not a string), [STREAMABLE_HTTP] or [SSE]. *)
Theorem validateRemoteMCPServer_clean (obj : Object) (strict : bool) :
  validateRemoteMCPServer obj strict = [] ↔
    (String.prefix "http://" (getNestedString obj ["spec"; "url"]) = true
     ∨ String.prefix "https://" (getNestedString obj ["spec"; "url"]) = true)
    ∧ (getNestedString obj ["spec"; "protocol"] = ""
       ∨ getNestedString obj ["spec"; "protocol"] = "STREAMABLE_HTTP"
       ∨ getNestedString obj ["spec"; "protocol"] = "SSE").
Proof.
  unfold validateRemoteMCPServer.
  destruct (NestedString obj ["spec"; "url"]) as [url f1] eqn:Hu.
  destruct (NestedString obj ["spec"; "protocol"]) as [protocol f2] eqn:Hp.
  apply NestedString_empty in Hu as [Hu ->], Hp as [Hp _].
  rewrite Hu, Hp. clear Hu Hp. cbv beta iota zeta.
  destruct (decide (url = "")) as [-> | Hurl].
  - simpl. split; [destruct (_ && _); discriminate |].
    intros [[H | H] _]; discriminate H.
  - rewrite (bool_decide_eq_false_2 (url = "")) by exact Hurl.
    destruct (String.prefix "http://" url), (String.prefix "https://" url);
      repeat case_bool_decide; simpl; split;
      try discriminate; try (intros _; split; tauto);
      intros [[? | ?] [? | [? | ?]]]; congruence.
Qed.

(** X3.  The MCPServer rules raise an error exactly when the image is
    missing, and pass without an issue exactly when the image is set and
    the transport type is unset or [stdio]. *)
Theorem validateMCPServer_clean (obj : Object) (strict : bool) :
  (filter isError (validateMCPServer obj strict) = [] ↔
     getNestedString obj ["spec"; "deployment"; "image"] ≠ "")
  ∧ (validateMCPServer obj strict = [] ↔
       getNestedString obj ["spec"; "deployment"; "image"] ≠ ""
       ∧ (getNestedString obj ["spec"; "transportType"] = ""
          ∨ getNestedString obj ["spec"; "transportType"] = "stdio")).
Proof.
  unfold validateMCPServer.
  destruct (NestedString obj ["spec"; "deployment"; "image"])
    as [image f1] eqn:Hi.
  destruct (NestedString obj ["spec"; "transportType"])
    as [transport f2] eqn:Ht.
  apply NestedString_empty in Hi as [Hi ->], Ht as [Ht _].
  rewrite Hi, Ht. clear Hi Ht. cbv beta iota zeta.
  repeat case_bool_decide; simpl; (split; split);
    try discriminate; try congruence; try tauto;
    try (intros _; split; tauto);
    try (intros [? [? | ?]]; congruence).
Qed.

Section ValidatorFacts.
Context {S : Type} {dyn : DynamicInterface S} {json : JSONDecoder}.

(** The error-severity issues of the Agent rules are the required-field
    errors and nothing else. *)
Lemma validateAgent_error_list (ts : ToolServer) (obj : Object)
    (strict : bool) (s : S) :
  filter isError (validateAgent ts obj strict s) = facts.agentErrors obj.
Proof.
  unfold validateAgent, facts.agentErrors.
  destruct (NestedString obj ["spec"; "type"]) as [specType f1] eqn:H1.
  destruct (NestedString obj ["spec"; "declarative"; "modelConfig"])
    as [modelConfig f2] eqn:H2.
  destruct (NestedString obj ["spec"; "declarative"; "systemMessage"])
    as [systemMessage f3] eqn:H3.
  destruct (NestedString obj ["spec"; "description"]) as [description f4].
  apply NestedString_empty in H1 as [H1 ->], H2 as [H2 ->], H3 as [H3 ->].
  rewrite H1, H2, H3. clear H1 H2 H3. cbv beta iota zeta.
  destruct (bool_decide (specType = ""));
    destruct (bool_decide (specType = "Declarative"));
    destruct (bool_decide (modelConfig = ""));
    destruct (GetModelConfig (k8sClient ts) modelConfig s);
    destruct (bool_decide (systemMessage = ""));
    destruct strict;
    destruct (String.length systemMessage <? 100)%nat;
    destruct (bool_decide (description = "")); reflexivity.
Qed.

(** X4.  An Agent manifest is free of error-severity issues exactly when
    [apiVersion], [metadata.name] and [spec.type] are set and, for a
    declarative agent, so are the model config and the system message.
    Neither [strict] nor the cluster has a say. *)
Theorem agent_error_free (ts : ToolServer) (obj : Object) (strict : bool)
    (s : S) :
  GetKind obj = "Agent" →
  filter isError (handleValidateManifest ts obj strict s) = [] ↔
    GetAPIVersion obj ≠ "" ∧ GetName obj ≠ ""
    ∧ getNestedString obj ["spec"; "type"] ≠ ""
    ∧ (getNestedString obj ["spec"; "type"] = "Declarative" →
       getNestedString obj ["spec"; "declarative"; "modelConfig"] ≠ ""
       ∧ getNestedString obj ["spec"; "declarative"; "systemMessage"] ≠ "").
Proof.
  intros Hkind. unfold handleValidateManifest. rewrite Hkind.
  rewrite (bool_decide_eq_true_2 ("Agent" = "Agent")) by reflexivity.
  rewrite (bool_decide_eq_false_2 ("Agent" = "")) by discriminate.
  rewrite list.filter_app, validateAgent_error_list.
  unfold facts.agentErrors. cbv zeta.
  repeat case_bool_decide; simpl; split;
    try discriminate; try tauto;
    try (intros _; repeat split; try assumption; intros; congruence);
    try (intros (? & ? & ? & Hdecl); try contradiction;
         destruct Hdecl as [? ?]; [assumption | contradiction]).
Qed.

(** X5.  An agent whose type is set to anything but [Declarative] is checked
    for its description only: the declarative block is not read and the
    cluster is not consulted. *)
Theorem validateAgent_not_declarative (ts : ToolServer) (obj : Object)
    (strict : bool) (s : S) :
  getNestedString obj ["spec"; "type"] ≠ "" →
  getNestedString obj ["spec"; "type"] ≠ "Declarative" →
  validateAgent ts obj strict s =
    if strict && bool_decide (getNestedString obj ["spec"; "description"] = "")
    then [missingDescription] else [].
Proof.
  intros Hset Hbyo. unfold validateAgent.
  destruct (NestedString obj ["spec"; "type"]) as [specType f1] eqn:H1.
  destruct (NestedString obj ["spec"; "description"])
    as [description f4] eqn:H4.
  apply NestedString_empty in H1 as [H1 ->], H4 as [H4 _].
  rewrite H1 in Hset, Hbyo. rewrite H4. clear H1 H4.
  rewrite (bool_decide_eq_false_2 (specType = "")) by exact Hset.
  rewrite (bool_decide_eq_false_2 (specType = "Declarative")) by exact Hbyo.
  destruct (NestedString obj ["spec"; "declarative"; "modelConfig"]).
  destruct (NestedString obj ["spec"; "declarative"; "systemMessage"]).
  destruct strict; [| reflexivity].
  simpl. destruct (bool_decide (description = "")); reflexivity.
Qed.

End ValidatorFacts.

(** [gvrFromKind] resolves the four kinds and no other; every resource
    it returns is in the group [kagent.dev]. *)
Lemma gvrFromKind_known (kind : string) :
  (∃ gvr, gvrFromKind kind = OK gvr) ↔ kind ∈ facts.knownKinds.
Proof.
  unfold gvrFromKind, facts.knownKinds. split.
  - intros [gvr Hgvr]. repeat case_decide; subst;
      try discriminate; set_solver.
  - intros Hin.
    repeat (apply elem_of_cons in Hin as [-> | Hin]; [eexists; reflexivity |]).
    by apply elem_of_nil in Hin.
Qed.

Lemma gvrFromKind_unknown_error (kind : string) (e : error) :
  gvrFromKind kind = Err e → e = Errorf ("unknown kind: " +:+ kind) None.
Proof.
  unfold gvrFromKind. repeat case_decide; congruence.
Qed.

Section ValidatorInvariants.
Context {S : Type} {dyn : DynamicInterface S} {json : JSONDecoder}.

Lemma validateAgent_severities (ts : ToolServer) (obj : Object)
    (strict : bool) (s : S) :
  forallb facts.ruleIssue (validateAgent ts obj strict s) = true.
Proof.
  unfold validateAgent.
  destruct (NestedString obj ["spec"; "type"]) as [specType f1].
  destruct (NestedString obj ["spec"; "declarative"; "modelConfig"])
    as [modelConfig f2].
  destruct (NestedString obj ["spec"; "declarative"; "systemMessage"])
    as [systemMessage f3].
  destruct (NestedString obj ["spec"; "description"]) as [description f4].
  cbv beta iota zeta.
  destruct (negb f1 || bool_decide (specType = ""));
    destruct (bool_decide (specType = "Declarative"));
    destruct (negb f2 || bool_decide (modelConfig = ""));
    destruct (GetModelConfig (k8sClient ts) modelConfig s);
    destruct (negb f3 || bool_decide (systemMessage = ""));
    destruct strict;
    destruct (String.length systemMessage <? 100)%nat;
    destruct (bool_decide (description = ""));
    reflexivity.
Qed.

End ValidatorInvariants.

Lemma validateModelConfig_severities (obj : Object) (strict : bool) :
  forallb facts.ruleIssue (validateModelConfig obj strict) = true.
Proof.
  unfold validateModelConfig.
  destruct (NestedString obj ["spec"; "provider"]) as [provider f1].
  destruct (NestedString obj ["spec"; "model"]) as [model f2].
  destruct (NestedString obj ["spec"; "apiKeySecret"]) as [secret f3].
  cbv beta iota zeta.
  match goal with
  | |- context [negb (default false ?known)] =>
      generalize (negb (default false known)); intros unknown
  end.
  destruct (negb f1 || bool_decide (provider = ""));
    destruct unknown;
    destruct (negb f2 || bool_decide (model = ""));
    destruct (negb f3 || bool_decide (secret = ""));
    destruct (negb (bool_decide (provider = "Ollama")));
    reflexivity.
Qed.

Lemma validateMCPServer_severities (obj : Object) (strict : bool) :
  forallb facts.ruleIssue (validateMCPServer obj strict) = true.
Proof.
  unfold validateMCPServer.
  destruct (NestedString obj ["spec"; "deployment"; "image"]) as [image f1].
  destruct (NestedString obj ["spec"; "transportType"]) as [transport f2].
  cbv beta iota zeta.
  destruct (negb f1 || bool_decide (image = ""));
    destruct (negb (bool_decide (transport = ""))
              && negb (bool_decide (transport = "stdio")));
    reflexivity.
Qed.

Lemma validateRemoteMCPServer_severities (obj : Object) (strict : bool) :
  forallb facts.ruleIssue (validateRemoteMCPServer obj strict) = true.
Proof.
  unfold validateRemoteMCPServer.
  destruct (NestedString obj ["spec"; "url"]) as [url f1].
  destruct (NestedString obj ["spec"; "protocol"]) as [protocol f2].
  cbv beta iota zeta.
  destruct (negb f1 || bool_decide (url = ""));
    destruct (negb (String.prefix "http://" url)
              && negb (String.prefix "https://" url));
    destruct (negb (bool_decide (protocol = ""))
              && negb (bool_decide (protocol = "STREAMABLE_HTTP"))
              && negb (bool_decide (protocol = "SSE")));
    reflexivity.
Qed.

Lemma ruleIssue_spec (l : list ValidationIssue) (i : ValidationIssue) :
  forallb facts.ruleIssue l = true → i ∈ l →
  (Severity i = "error" ∨ Severity i = "warning") ∧ Field i ≠ "kind".
Proof.
  intros Hall Hin. rewrite forallb_forall in Hall.
  apply list_elem_of_In, Hall in Hin. unfold facts.ruleIssue in Hin.
  apply andb_true_iff in Hin as [Hsev Hfield].
  apply orb_true_iff in Hsev. apply negb_true_iff in Hfield.
  split.
  - destruct Hsev as [H | H]; apply bool_decide_eq_true_1 in H; tauto.
  - intros Hkind. by rewrite bool_decide_eq_true_2 in Hfield.
Qed.

Section ValidatorWhole.
Context {S : Type} {dyn : DynamicInterface S} {json : JSONDecoder}.

(** The issues of a validation: the errors of the global checks, then
    the issues of the kind's rule set or the unknown-kind warning. *)
Lemma handleValidateManifest_elem (ts : ToolServer) (obj : Object)
    (strict : bool) (s : S) (i : ValidationIssue) :
  i ∈ handleValidateManifest ts obj strict s →
  (Severity i = "error"
   ∧ (Field i = "apiVersion" ∨ (Field i = "kind" ∧ GetKind obj = "")
      ∨ Field i = "metadata.name"))
  ∨ (GetKind obj ∈ facts.knownKinds
     ∧ (Severity i = "error" ∨ Severity i = "warning") ∧ Field i ≠ "kind")
  ∨ ((GetKind obj ∉ facts.knownKinds)
     ∧ Severity i = "warning" ∧ Field i = "kind").
Proof.
  unfold handleValidateManifest, facts.knownKinds.
  set (rules := if bool_decide (GetKind obj = "Agent") then _ else _).
  intros Hin.
  assert (Hglobal : ∀ l : list ValidationIssue, i ∈ l ++ [] → i ∈ l)
    by (intros l; rewrite app_nil_r; tauto).
  assert (Hcases :
    (Severity i = "error"
     ∧ (Field i = "apiVersion" ∨ (Field i = "kind" ∧ GetKind obj = "")
        ∨ Field i = "metadata.name"))
    ∨ (∃ l, i ∈ l
         ∧ (GetKind obj = "Agent" ∧ l = validateAgent ts obj strict s
            ∨ GetKind obj = "ModelConfig" ∧ l = validateModelConfig obj strict
            ∨ GetKind obj = "MCPServer" ∧ l = validateMCPServer obj strict
            ∨ GetKind obj = "RemoteMCPServer"
              ∧ l = validateRemoteMCPServer obj strict))
    ∨ ((GetKind obj ∉ ["Agent"; "ModelConfig"; "MCPServer"; "RemoteMCPServer"])
       ∧ Severity i = "warning" ∧ Field i = "kind")).
  { subst rules.
    repeat case_bool_decide;
      repeat (rewrite elem_of_app in Hin; destruct Hin as [Hin | Hin]);
      repeat match goal with
        | H : i ∈ [] |- _ => exfalso; exact (proj1 (elem_of_nil i) H)
        | H : i ∈ [_] |- _ => rewrite list_elem_of_singleton in H; subst i
        end;
      try (left; simpl; tauto);
      try (right; left; eexists; split; [exact Hin | tauto]);
      right; right; simpl; repeat split;
      intros Hknown;
      repeat (rewrite elem_of_cons in Hknown;
              destruct Hknown as [Hknown | Hknown]; [congruence |]);
      exact (proj1 (elem_of_nil _) Hknown). }
  destruct Hcases as [Hg | [(l & Hl & Hkind) | Hu]];
    [left; exact Hg | right; left | right; right; exact Hu].
  assert (Hrule : forallb facts.ruleIssue l = true).
  { destruct Hkind as [[_ ->] | [[_ ->] | [[_ ->] | [_ ->]]]];
      auto using validateAgent_severities, validateModelConfig_severities,
        validateMCPServer_severities, validateRemoteMCPServer_severities. }
  split; [| exact (ruleIssue_spec l i Hrule Hl)].
  destruct Hkind as [[-> _] | [[-> _] | [[-> _] | [-> _]]]]; set_solver.
Qed.

(** X6.  Every issue the validation returns has severity [error] or
    [warning]. *)
Theorem issue_severities (ts : ToolServer) (obj : Object) (strict : bool)
    (s : S) :
  Forall (λ i, Severity i = "error" ∨ Severity i = "warning")
    (handleValidateManifest ts obj strict s).
Proof.
  apply list.Forall_forall. intros i Hin.
  apply handleValidateManifest_elem in Hin as [[? _] | [(_ & ? & _) | (_ & ? & _)]];
    tauto.
Qed.

(** X7.  The validation warns of an unknown kind exactly when [Apply] cannot
    resolve the kind: a warning on the field [kind] is raised if and only
    if [gvrFromKind] fails. *)
Theorem unknown_kind_warning_iff_unresolved (ts : ToolServer) (obj : Object)
    (strict : bool) (s : S) :
  (∃ i, i ∈ handleValidateManifest ts obj strict s
        ∧ Field i = "kind" ∧ Severity i = "warning")
  ↔ (∃ e, gvrFromKind (GetKind obj) = Err e).
Proof.
  split.
  - intros (i & Hin & Hfield & Hsev).
    apply handleValidateManifest_elem in Hin
      as [[Herr _] | [(_ & _ & Hne) | (Hunknown & _)]].
    + rewrite Hsev in Herr. discriminate Herr.
    + contradiction.
    + destruct (gvrFromKind (GetKind obj)) as [gvr | e] eqn:Hgvr;
        [| eexists; reflexivity].
      exfalso. apply Hunknown, gvrFromKind_known. eauto.
  - intros [e Hgvr].
    assert (Hunknown : GetKind obj ∉ facts.knownKinds).
    { intros Hin. apply gvrFromKind_known in Hin as [gvr Hok]. congruence. }
    unfold facts.knownKinds in Hunknown.
    eexists. split; [| split].
    + unfold handleValidateManifest.
      rewrite (bool_decide_eq_false_2 (GetKind obj = "Agent")),
        (bool_decide_eq_false_2 (GetKind obj = "ModelConfig")),
        (bool_decide_eq_false_2 (GetKind obj = "MCPServer")),
        (bool_decide_eq_false_2 (GetKind obj = "RemoteMCPServer"))
        by set_solver.
      apply elem_of_app. right. apply list_elem_of_singleton. reflexivity.
    + reflexivity.
    + reflexivity.
Qed.

End ValidatorWhole.

(** X8.  The error-severity issues of a validation depend on the manifest
    alone: two runs on the same manifest, against any two clusters and
    clients and with any two settings of [strict], return the same
    errors. *)
Theorem validation_errors_depend_on_manifest_only
    {S1 S2 : Type} {dyn1 : DynamicInterface S1} {dyn2 : DynamicInterface S2}
    {json1 json2 : JSONDecoder} (ts1 ts2 : ToolServer) (obj : Object)
    (strict1 strict2 : bool) (s1 : S1) (s2 : S2) :
  filter isError
    (handleValidateManifest (dyn := dyn1) (json := json1) ts1 obj strict1 s1) =
  filter isError
    (handleValidateManifest (dyn := dyn2) (json := json2) ts2 obj strict2 s2).
Proof.
  unfold handleValidateManifest.
  repeat case_bool_decide; rewrite ?list.filter_app, ?validateAgent_error_list;
    reflexivity.
Qed.

(** * Further properties of the reconciler *)

(** ** Fields under [metadata] *)

(** Membership in a list of literals. *)
Ltac literal_elem :=
  repeat first [apply list_elem_of_here | apply list_elem_of_further].

Ltac literal_not_elem :=
  let H := fresh "Hin" in
  intros H;
  repeat (rewrite elem_of_cons in H; destruct H as [H | H];
          [discriminate H |]);
  exact (proj1 (elem_of_nil _) H).

Lemma getNestedString_NestedFieldNoCopy (x y : Object) (fields : list string) :
  NestedFieldNoCopy (VMap x) fields = NestedFieldNoCopy (VMap y) fields →
  getNestedString x fields = getNestedString y fields.
Proof.
  unfold getNestedString, NestedString. intros ->. reflexivity.
Qed.

Lemma RemoveNestedField_metadata_top (obj : Object) (f k : string) :
  k ≠ "metadata" →
  RemoveNestedField obj ["metadata"; f] !! k = obj !! k.
Proof.
  intros Hk. simpl.
  destruct (obj !! "metadata") as [[| | | | | meta] |]; try reflexivity.
  apply lookup_insert_ne. congruence.
Qed.

Lemma RemoveNestedField_metadata_field (obj : Object) (f g : string) :
  NestedFieldNoCopy (VMap (RemoveNestedField obj ["metadata"; f]))
    ["metadata"; g] =
    if decide (f = g) then None
    else NestedFieldNoCopy (VMap obj) ["metadata"; g].
Proof.
  simpl.
  destruct (obj !! "metadata") as [[| | | | | meta] |] eqn:Hmeta;
    rewrite ?Hmeta, ?lookup_insert_eq; try (case_decide; reflexivity).
  case_decide as Hfg.
  - subst g. rewrite lookup_delete_eq. reflexivity.
  - rewrite lookup_delete_ne by exact Hfg. reflexivity.
Qed.

Lemma SetNestedField_metadata_top (obj : Object) (v : value) (f k : string) :
  k ≠ "metadata" →
  SetNestedField obj v ["metadata"; f] !! k = obj !! k.
Proof.
  intros Hk. simpl.
  destruct (obj !! "metadata") as [[| | | | | meta] |]; try reflexivity;
    apply lookup_insert_ne; congruence.
Qed.

Lemma SetNestedField_metadata_other (obj : Object) (v : value) (f g : string) :
  f ≠ g →
  NestedFieldNoCopy (VMap (SetNestedField obj v ["metadata"; f]))
    ["metadata"; g] = NestedFieldNoCopy (VMap obj) ["metadata"; g].
Proof.
  intros Hfg. simpl.
  destruct (obj !! "metadata") as [[| | | | | meta] |] eqn:Hmeta;
    rewrite ?Hmeta, ?lookup_insert_eq; try reflexivity.
  - rewrite lookup_insert_ne by exact Hfg. reflexivity.
  - rewrite lookup_insert_ne by exact Hfg. reflexivity.
Qed.

Lemma agreeOutsideMetadata_refl (fields : list string) (x : Object) :
  frames.agreeOutsideMetadata fields x x.
Proof. split; reflexivity. Qed.

Lemma agreeOutsideMetadata_trans (fields : list string) (x y z : Object) :
  frames.agreeOutsideMetadata fields x y →
  frames.agreeOutsideMetadata fields y z →
  frames.agreeOutsideMetadata fields x z.
Proof.
  intros [Hxy Hxy'] [Hyz Hyz']. split.
  - intros k Hk. rewrite Hxy, Hyz by exact Hk. reflexivity.
  - intros g Hg. rewrite Hxy', Hyz' by exact Hg. reflexivity.
Qed.

Lemma SetNamespace_agree (fields : list string) (obj : Object) (ns : string) :
  "namespace" ∈ fields →
  frames.agreeOutsideMetadata fields (SetNamespace obj ns) obj.
Proof.
  intros Hin. unfold SetNamespace. case_decide; split.
  - intros k Hk. by apply RemoveNestedField_metadata_top.
  - intros g Hg. rewrite RemoveNestedField_metadata_field.
    case_decide; [subst g; contradiction | reflexivity].
  - intros k Hk. by apply SetNestedField_metadata_top.
  - intros g Hg. apply SetNestedField_metadata_other.
    intros <-. contradiction.
Qed.

Lemma SetResourceVersion_agree (fields : list string) (obj : Object)
    (rv : string) :
  "resourceVersion" ∈ fields →
  frames.agreeOutsideMetadata fields (SetResourceVersion obj rv) obj.
Proof.
  intros Hin. unfold SetResourceVersion. case_decide; split.
  - intros k Hk. by apply RemoveNestedField_metadata_top.
  - intros g Hg. rewrite RemoveNestedField_metadata_field.
    case_decide; [subst g; contradiction | reflexivity].
  - intros k Hk. by apply SetNestedField_metadata_top.
  - intros g Hg. apply SetNestedField_metadata_other.
    intros <-. contradiction.
Qed.

Lemma withNamespace_agree (fields : list string) (c : Client)
    (manifest : Object) :
  "namespace" ∈ fields →
  frames.agreeOutsideMetadata fields (withNamespace c manifest) manifest.
Proof.
  intros Hin. unfold withNamespace. case_decide.
  - by apply SetNamespace_agree.
  - apply agreeOutsideMetadata_refl.
Qed.

Lemma agreeOutsideMetadata_identity (fields : list string) (x y : Object) :
  frames.agreeOutsideMetadata fields x y →
  GetKind x = GetKind y ∧ GetAPIVersion x = GetAPIVersion y
  ∧ ("name" ∉ fields → GetName x = GetName y)
  ∧ ("namespace" ∉ fields → GetNamespace x = GetNamespace y).
Proof.
  intros [Htop Hmeta]. repeat split.
  - unfold GetKind. rewrite !getNestedString_top, Htop by discriminate.
    reflexivity.
  - unfold GetAPIVersion. rewrite !getNestedString_top, Htop by discriminate.
    reflexivity.
  - intros Hname. apply getNestedString_NestedFieldNoCopy, Hmeta, Hname.
  - intros Hns. apply getNestedString_NestedFieldNoCopy, Hmeta, Hns.
Qed.

(** The namespace after the namespace step: the manifest's own, or the
    configured one when the manifest names none. *)
Lemma withNamespace_GetNamespace (c : Client) (manifest : Object) :
  (∃ meta, manifest !! "metadata" = Some (VMap meta)) →
  GetNamespace (withNamespace c manifest) =
    if decide (GetNamespace manifest = "") then namespace c
    else GetNamespace manifest.
Proof.
  intros [meta Hmeta]. unfold withNamespace.
  case_decide as Hns; [| reflexivity].
  unfold SetNamespace, GetNamespace, getNestedString, NestedString.
  case_decide as Hc; simpl; rewrite Hmeta, lookup_insert_eq.
  - rewrite lookup_delete_eq. symmetry. exact Hc.
  - rewrite lookup_insert_eq. reflexivity.
Qed.

(** ** Apply: what is submitted and what is reported *)

Section ApplyFacts.
Context {S : Type} {dyn : DynamicInterface S}.

(** The run of [Apply] once the kind has resolved: one logged call,
    whose object is the manifest after the namespace step and, on the
    update branch, the version step. *)
Lemma ApplyRecorded_resolved (c : Client) (manifest : Object) (dryRun : bool)
    (s : S) (gvr : GroupVersionResource) :
  gvrFromObject manifest = OK gvr →
  ∃ (call : StoreCall) (action failure : string) (r : Result Object) (s' : S),
    ApplyRecorded c manifest dryRun s =
      (applyOutcome action failure (frames.callObject call) dryRun r,
       (s', [call]))
    ∧ (action = "created" ∨ action = "updated")
    ∧ callDryRun call = dryRunOption dryRun
    ∧ frames.callNamespace call = GetNamespace (frames.callObject call)
    ∧ (frames.callObject call = withNamespace c manifest
       ∨ ∃ rv, frames.callObject call =
                 SetResourceVersion (withNamespace c manifest) rv).
Proof.
  intros Hgvr.
  destruct (Get gvr (GetNamespace (withNamespace c manifest))
              (GetName (withNamespace c manifest)) s)
    as [existing | e] eqn:Hget.
  - rewrite (ApplyRecorded_fetched c manifest dryRun s gvr existing Hgvr Hget).
    eexists (UpdateCall _ _ _ _), _, _, _, _.
    split; [reflexivity |]. simpl. eauto 10.
  - rewrite (ApplyRecorded_fetch_error c manifest dryRun s gvr e Hgvr Hget).
    eexists (CreateCall _ _ _ _), _, _, _, _.
    split; [reflexivity |]. simpl. eauto 10.
Qed.

(** X9.  A manifest of a kind outside the four is refused with the
    unknown-kind error before any store call: nothing is submitted and
    the cluster is left as it was.  A manifest of one of the four kinds
    leads to exactly one mutating call. *)
Theorem apply_unknown_kind (c : Client) (manifest : Object) (dryRun : bool)
    (s : S) :
  ((GetKind manifest ∉ facts.knownKinds) →
     ApplyRecorded c manifest dryRun s =
       (Err (Errorf ("unknown kind: " +:+ GetKind manifest) None), (s, [])))
  ∧ (GetKind manifest ∈ facts.knownKinds →
       length (ApplyRecorded c manifest dryRun s).2.2 = 1).
Proof.
  split.
  - intros Hunknown.
    destruct (gvrFromObject manifest) as [gvr | e] eqn:Hgvr.
    + exfalso. apply Hunknown, gvrFromKind_known. eauto.
    + unfold ApplyRecorded, Apply. rewrite Hgvr.
      apply gvrFromKind_unknown_error in Hgvr as ->. reflexivity.
  - intros [gvr Hgvr]%gvrFromKind_known.
    destruct (ApplyRecorded_resolved c manifest dryRun s gvr Hgvr)
      as (call & action & failure & r & s' & -> & _). reflexivity.
Qed.

(** X10.  [Apply] submits the manifest as the user wrote it, but for
    [metadata.namespace] and [metadata.resourceVersion]: on every other
    top-level key and on every other key under [metadata] the submitted
    object agrees with the manifest; and the call is addressed to the
    namespace the submitted object carries. *)
Theorem apply_submits_manifest (c : Client) (manifest : Object)
    (dryRun : bool) (s : S) (call : StoreCall) :
  call ∈ (ApplyRecorded c manifest dryRun s).2.2 →
  frames.agreeOutsideMetadata ["namespace"; "resourceVersion"]
    (frames.callObject call) manifest
  ∧ frames.callNamespace call = GetNamespace (frames.callObject call)
  ∧ callDryRun call = dryRunOption dryRun.
Proof.
  intros Hcall.
  destruct (gvrFromObject manifest) as [gvr | e] eqn:Hgvr.
  - destruct (ApplyRecorded_resolved c manifest dryRun s gvr Hgvr)
      as (call' & action & failure & r & s' & Hrun & _ & Hdry & Hns & Hobj).
    rewrite Hrun in Hcall. apply list_elem_of_singleton in Hcall as ->.
    split; [| split; assumption].
    destruct Hobj as [-> | [rv ->]].
    + apply withNamespace_agree. literal_elem.
    + eapply agreeOutsideMetadata_trans.
      * apply SetResourceVersion_agree. literal_elem.
      * apply withNamespace_agree. literal_elem.
  - unfold ApplyRecorded, Apply in Hcall. rewrite Hgvr in Hcall.
    by apply elem_of_nil in Hcall.
Qed.

(** X11.  A successful [Apply] reports the manifest's own kind and name, the
    flag it was called with, and one of the two actions; for a manifest
    with a name, the namespace it reports is the manifest's, or the
    configured one when the manifest names none. *)
Theorem apply_outcome_identity (c : Client) (manifest : Object)
    (dryRun : bool) (s : S) (r : ApplyResult) :
  (Apply c manifest dryRun s).1 = OK r →
  Kind r = GetKind manifest
  ∧ Kind r ∈ facts.knownKinds
  ∧ Name r = GetName manifest
  ∧ DryRun r = dryRun
  ∧ (Action r = "created" ∨ Action r = "updated")
  ∧ (GetName manifest ≠ "" →
     Namespace r = if decide (GetNamespace manifest = "") then namespace c
                   else GetNamespace manifest).
Proof.
  destruct (ApplyRecorded_erase c manifest dryRun s) as [<- _].
  destruct (gvrFromObject manifest) as [gvr | e] eqn:Hgvr.
  - destruct (ApplyRecorded_resolved c manifest dryRun s gvr Hgvr)
      as (call & action & failure & res & s' & -> & Haction & _ & _ & Hobj).
    cbn [fst]. destruct res as [stored | e]; [| discriminate].
    intros [= <-]. cbn [Kind Name DryRun Action Namespace].
    assert (Hagree : frames.agreeOutsideMetadata ["resourceVersion"]
                       (frames.callObject call) (withNamespace c manifest)).
    { destruct Hobj as [-> | [rv ->]].
      - apply agreeOutsideMetadata_refl.
      - apply SetResourceVersion_agree. literal_elem. }
    apply agreeOutsideMetadata_identity in Hagree
      as (Hkind & _ & Hname & Hns).
    pose proof (withNamespace_agree ["namespace"] c manifest
                  ltac:(literal_elem)) as Hagree'.
    apply agreeOutsideMetadata_identity in Hagree'
      as (Hkind' & _ & Hname' & _).
    rewrite Hkind, Hkind', Hname, Hname', Hns by literal_not_elem.
    split; [reflexivity |].
    split; [apply gvrFromKind_known; eauto |].
    split; [reflexivity |]. split; [reflexivity |].
    split; [exact Haction |].
    intros Hnamed. apply withNamespace_GetNamespace, GetName_metadata, Hnamed.
  - unfold ApplyRecorded, Apply. rewrite Hgvr. discriminate.
Qed.

End ApplyFacts.

(** ** What [GetCurrentState] strips and what it keeps *)

Lemma stripServerManaged_field (obj : Object) (g : string) :
  NestedFieldNoCopy (VMap (stripServerManaged obj)) ["metadata"; g] =
    if bool_decide (g ∈ serverManagedMetadata) then None
    else NestedFieldNoCopy (VMap obj) ["metadata"; g].
Proof.
  unfold stripServerManaged. cbv zeta.
  rewrite !RemoveNestedField_metadata_field, NestedFieldNoCopy_delete_status.
  unfold serverManagedMetadata.
  case_bool_decide as Hin.
  - repeat (rewrite elem_of_cons in Hin; destruct Hin as [-> | Hin];
            [reflexivity |]).
    exfalso. exact (proj1 (elem_of_nil _) Hin).
  - repeat case_decide; try reflexivity; subst g;
      exfalso; apply Hin; literal_elem.
Qed.

Lemma stripServerManaged_top (obj : Object) (k : string) :
  k ≠ "metadata" →
  stripServerManaged obj !! k = delete "status" obj !! k.
Proof.
  intros Hk. unfold stripServerManaged. cbv zeta.
  rewrite !RemoveNestedField_metadata_top by exact Hk. reflexivity.
Qed.

Lemma stripServerManaged_status (obj : Object) :
  stripServerManaged obj !! "status" = None.
Proof.
  rewrite stripServerManaged_top by discriminate. apply lookup_delete_eq.
Qed.

Lemma stripServerManaged_carries_none (obj : Object) :
  carriesNoServerMetadata (stripServerManaged obj).
Proof.
  intros g Hg. rewrite stripServerManaged_field.
  rewrite bool_decide_eq_true_2 by exact Hg. reflexivity.
Qed.

Lemma stripServerManaged_identity (obj : Object) :
  GetKind (stripServerManaged obj) = GetKind obj
  ∧ GetAPIVersion (stripServerManaged obj) = GetAPIVersion obj
  ∧ GetName (stripServerManaged obj) = GetName obj
  ∧ GetNamespace (stripServerManaged obj) = GetNamespace obj.
Proof.
  unfold GetKind, GetAPIVersion, GetName, GetNamespace.
  rewrite !getNestedString_top, !stripServerManaged_top by discriminate.
  rewrite !lookup_delete_ne by discriminate.
  repeat split; apply getNestedString_NestedFieldNoCopy;
    rewrite stripServerManaged_field;
    (rewrite bool_decide_eq_false_2;
     [reflexivity | unfold serverManagedMetadata; literal_not_elem]).
Qed.

(** X12.  The object [GetCurrentState] hands to the diff carries no [status]
    and none of the five server-managed metadata fields, and stripping
    it again changes nothing. *)
Theorem stripServerManaged_removes (obj : Object) :
  stripServerManaged obj !! "status" = None
  ∧ carriesNoServerMetadata (stripServerManaged obj)
  ∧ stripServerManaged (stripServerManaged obj) = stripServerManaged obj.
Proof.
  split; [apply stripServerManaged_status |].
  split; [apply stripServerManaged_carries_none |].
  rewrite (stripServerManaged_user_manifest _
             (stripServerManaged_carries_none obj)).
  apply delete_id, stripServerManaged_status.
Qed.

(** X13.  Everything else survives the stripping: every top-level key but
    [status] and [metadata], every other key under [metadata], and with
    them the kind, the API version, the name and the namespace. *)
Theorem stripServerManaged_keeps (obj : Object) :
  (∀ k, k ≠ "status" → k ≠ "metadata" →
     stripServerManaged obj !! k = obj !! k)
  ∧ (∀ g, g ∉ serverManagedMetadata →
       NestedFieldNoCopy (VMap (stripServerManaged obj)) ["metadata"; g] =
         NestedFieldNoCopy (VMap obj) ["metadata"; g])
  ∧ GetKind (stripServerManaged obj) = GetKind obj
  ∧ GetAPIVersion (stripServerManaged obj) = GetAPIVersion obj
  ∧ GetName (stripServerManaged obj) = GetName obj
  ∧ GetNamespace (stripServerManaged obj) = GetNamespace obj.
Proof.
  split; [| split; [| apply stripServerManaged_identity]].
  - intros k Hs Hm. rewrite stripServerManaged_top by exact Hm.
    apply lookup_delete_ne. congruence.
  - intros g Hg. rewrite stripServerManaged_field.
    rewrite bool_decide_eq_false_2 by exact Hg. reflexivity.
Qed.

Section DiffFacts.
Context {S : Type} {dyn : DynamicInterface S}.




End DiffFacts.

(** * Deleting *)

Import deletion agenttools.

Section DeleteFacts.
Context {S : Type} {dyn : DynamicInterface S} {del : DynamicDelete S}
  {json : AgentDecoder}.

(** X17.  [Delete] refuses a kind outside the four with the unknown-kind
    error and without a store call; for one of the four it submits the
    delete in the configured namespace, marked [DryRun: All] exactly when
    [dryRun] is set. *)
Theorem Delete_resolves_kind (c : Client) (kind name : string)
    (dryRun : bool) (s : S) :
  ((kind ∉ facts.knownKinds) →
     Delete c kind name dryRun s =
       (Some (Errorf ("unknown kind: " +:+ kind) None), s))
  ∧ (kind ∈ facts.knownKinds →
       ∃ gvr, gvrFromKind kind = OK gvr
         ∧ Delete c kind name dryRun s =
             DeleteResource gvr (namespace c) name
               {| deleteDryRun := dryRunOption dryRun |} s).
Proof.
  unfold Delete. split.
  - intros Hunknown.
    destruct (gvrFromKind kind) as [gvr | e] eqn:Hgvr.
    + exfalso. apply Hunknown, gvrFromKind_known. eauto.
    + apply gvrFromKind_unknown_error in Hgvr as ->. reflexivity.
  - intros [gvr Hgvr]%gvrFromKind_known. exists gvr.
    rewrite Hgvr. split; reflexivity.
Qed.

(** X18.  [delete_agent] touches the cluster only on its last step: whenever
    the cluster after the call differs from the cluster before, the name
    was given, [dry_run] was off and the agent had been fetched.  With
    [dry_run] on no delete reaches the store at all, so the cluster is
    unchanged whether or not the store honours dry-run marks. *)
Theorem handleDeleteAgent_guarded (ts : ToolServer) (name : string)
    (dryRun : bool) (s : S) :
  ((handleDeleteAgent ts name dryRun s).2 ≠ s →
     name ≠ "" ∧ dryRun = false
     ∧ ∃ agent, GetAgent (k8sClient ts) name s = OK agent)
  ∧ (dryRun = true →
       (handleDeleteAgent ts name dryRun s).2 = s
       ∧ ∀ e deleted, (handleDeleteAgent ts name dryRun s).1 ≠ DeleteFailed e
                      ∧ (handleDeleteAgent ts name dryRun s).1 ≠ Deleted deleted).
Proof.
  unfold handleDeleteAgent. split.
  - case_bool_decide as Hname; [intros H; contradiction |].
    destruct (GetAgent (k8sClient ts) name s) as [agent | e];
      [| intros H; contradiction].
    destruct dryRun; [intros H; contradiction |].
    intros _. eauto.
  - intros ->. case_bool_decide; [split; [reflexivity | split; discriminate] |].
    destruct (GetAgent (k8sClient ts) name s);
      split; try reflexivity; split; discriminate.
Qed.

(** A real [delete_agent] deletes the agent of that name in the
    configured namespace, unmarked, after the fetch succeeded; the kind
    it passes always resolves, so it never fails with the unknown-kind
    error of [Delete]. *)
Theorem handleDeleteAgent_deletes (ts : ToolServer) (name : string) (s : S)
    (agent : agenttypes.Agent) :
  name ≠ "" →
  GetAgent (k8sClient ts) name s = OK agent →
  let run :=
    DeleteResource AgentGVR (namespace (k8sClient ts)) name
      {| deleteDryRun := [] |} s in
  handleDeleteAgent ts name false s =
    (match run.1 with Some e => DeleteFailed e | None => Deleted name end,
     run.2).
Proof.
  intros Hname Hget run. unfold handleDeleteAgent, Delete.
  rewrite (bool_decide_eq_false_2 (name = "")) by exact Hname.
  rewrite Hget. simpl. fold run. destruct run as [[e |] s']; reflexivity.
Qed.

End DeleteFacts.

(** * The generators and the validator *)

Import encoding generators.

(** ** Reading the JSON form *)

#[local] Arguments omitString : simpl never.
#[local] Arguments omitStrings : simpl never.
#[local] Arguments omitList : simpl never.
#[local] Arguments omitMap : simpl never.
#[local] Arguments omitPointer : simpl never.
#[local] Arguments omitBool : simpl never.
#[local] Arguments omitInt : simpl never.

Lemma lookup_omitString_eq (key v : string) (m : Object) :
  omitString key v m !! key =
    if decide (v = "") then m !! key else Some (VStr v).
Proof.
  unfold omitString. case_decide; [reflexivity | apply lookup_insert_eq].
Qed.

Lemma lookup_omitString_ne (key key' v : string) (m : Object) :
  key ≠ key' → omitString key v m !! key' = m !! key'.
Proof.
  intros Hne. unfold omitString.
  case_decide; [reflexivity | by apply lookup_insert_ne].
Qed.

Lemma lookup_omitPointer_eq (key : string) (x : option Object) (m : Object) :
  omitPointer key x m !! key =
    match x with Some o => Some (VMap o) | None => m !! key end.
Proof. destruct x; [apply lookup_insert_eq | reflexivity]. Qed.

Lemma lookup_omitPointer_ne (key key' : string) (x : option Object)
    (m : Object) :
  key ≠ key' → omitPointer key x m !! key' = m !! key'.
Proof. intros Hne. destruct x; [by apply lookup_insert_ne | reflexivity]. Qed.

Lemma lookup_omitMap_ne (key key' : string) (x m : Object) :
  key ≠ key' → omitMap key x m !! key' = m !! key'.
Proof.
  intros Hne. unfold omitMap.
  case_decide; [reflexivity | by apply lookup_insert_ne].
Qed.

Lemma lookup_omitList_ne (key key' : string) (l : list Object) (m : Object) :
  key ≠ key' → omitList key l m !! key' = m !! key'.
Proof.
  intros Hne. unfold omitList.
  case_decide; [reflexivity | by apply lookup_insert_ne].
Qed.

Lemma lookup_omitBool_ne (key key' : string) (b : bool) (m : Object) :
  key ≠ key' → omitBool key b m !! key' = m !! key'.
Proof. intros Hne. destruct b; [by apply lookup_insert_ne | reflexivity]. Qed.

Lemma lookup_omitStrings_ne (key key' : string) (l : list string)
    (m : Object) :
  key ≠ key' → omitStrings key l m !! key' = m !! key'.
Proof.
  intros Hne. unfold omitStrings.
  case_decide; [reflexivity | by apply lookup_insert_ne].
Qed.

Lemma lookup_omitInt_ne (key key' : string) (n : Z) (m : Object) :
  key ≠ key' → omitInt key n m !! key' = m !! key'.
Proof.
  intros Hne. unfold omitInt.
  case_decide; [reflexivity | by apply lookup_insert_ne].
Qed.

(** Rewrites the lookup of a literal key in the JSON form of a spec. *)
Ltac lookup_encoded :=
  repeat first
    [ rewrite lookup_omitString_eq
    | rewrite lookup_omitPointer_eq
    | rewrite lookup_omitString_ne by discriminate
    | rewrite lookup_omitPointer_ne by discriminate
    | rewrite lookup_omitMap_ne by discriminate
    | rewrite lookup_omitList_ne by discriminate
    | rewrite lookup_omitBool_ne by discriminate
    | rewrite lookup_omitStrings_ne by discriminate
    | rewrite lookup_omitInt_ne by discriminate
    | rewrite lookup_empty ].

(** A string field of the spec of a rendered manifest. *)
Lemma rendered_spec_string (obj spec : Object) (key v : string) :
  obj !! "spec" = Some (VMap spec) →
  spec !! key = (if decide (v = "") then None else Some (VStr v)) →
  getNestedString obj ["spec"; key] = v.
Proof.
  intros Hspec Hkey. unfold getNestedString, NestedString. simpl.
  rewrite Hspec, Hkey. case_decide; [symmetry; assumption | reflexivity].
Qed.

Lemma rendered_nested_string (obj spec inner : Object) (block key v : string) :
  obj !! "spec" = Some (VMap spec) →
  spec !! block = Some (VMap inner) →
  inner !! key = (if decide (v = "") then None else Some (VStr v)) →
  getNestedString obj ["spec"; block; key] = v.
Proof.
  intros Hspec Hblock Hkey. unfold getNestedString, NestedString. simpl.
  rewrite Hspec, Hblock, Hkey.
  case_decide; [symmetry; assumption | reflexivity].
Qed.

(** The validation of a manifest with [apiVersion] and [metadata.name]
    set is the validation of its kind's rule set. *)
Section Rendered.
Context {S : Type} {dyn : DynamicInterface S} {json : JSONDecoder}.

Lemma handleValidateManifest_named (ts : ToolServer) (obj : Object)
    (strict : bool) (s : S) :
  GetAPIVersion obj ≠ "" → GetName obj ≠ "" →
  (GetKind obj = "Agent" →
     handleValidateManifest ts obj strict s = validateAgent ts obj strict s)
  ∧ (GetKind obj = "ModelConfig" →
       handleValidateManifest ts obj strict s = validateModelConfig obj strict)
  ∧ (GetKind obj = "MCPServer" →
       handleValidateManifest ts obj strict s = validateMCPServer obj strict)
  ∧ (GetKind obj = "RemoteMCPServer" →
       handleValidateManifest ts obj strict s =
         validateRemoteMCPServer obj strict).
Proof.
  intros Hapi Hname. unfold handleValidateManifest.
  rewrite (bool_decide_eq_false_2 (GetAPIVersion obj = "")),
    (bool_decide_eq_false_2 (GetName obj = "")) by assumption.
  repeat split; intros ->; reflexivity.
Qed.

End Rendered.

Lemma rendered_NestedString (obj spec : Object) (key v : string) :
  obj !! "spec" = Some (VMap spec) →
  spec !! key = (if decide (v = "") then None else Some (VStr v)) →
  NestedString obj ["spec"; key] = (v, bool_decide (v ≠ "")).
Proof.
  intros Hspec Hkey. unfold NestedString. simpl. rewrite Hspec, Hkey.
  case_decide as Hv.
  - subst v. reflexivity.
  - rewrite bool_decide_eq_true_2 by exact Hv. reflexivity.
Qed.

Lemma rendered_nested_NestedString (obj spec inner : Object)
    (block key v : string) :
  obj !! "spec" = Some (VMap spec) →
  spec !! block = Some (VMap inner) →
  inner !! key = (if decide (v = "") then None else Some (VStr v)) →
  NestedString obj ["spec"; block; key] = (v, bool_decide (v ≠ "")).
Proof.
  intros Hspec Hblock Hkey. unfold NestedString. simpl.
  rewrite Hspec, Hblock, Hkey. case_decide as Hv.
  - subst v. reflexivity.
  - rewrite bool_decide_eq_true_2 by exact Hv. reflexivity.
Qed.

(** Rewrites the read of a string two levels under [spec]. *)
Ltac rendered_nested Hspec block key v :=
  erewrite (rendered_nested_NestedString _ _ _ block key v Hspec);
  [ | unfold encodeAgentSpec, encodeMCPServerSpec; simpl;
      lookup_encoded; reflexivity
    | unfold encodeDeclarativeSpec, encodeDeploymentSpec; simpl;
      lookup_encoded; reflexivity ].

(** ** create_model_config_manifest *)

(** X19.  The generator accepts its arguments exactly when name, model and
    secret are given and the provider is one of the six.  The resource
    it prints then carries the arguments, the namespace [kagent], and a
    secret key that is never empty: the one given, or the provider's
    default. *)
Theorem create_model_config_accepts
    (name provider model secret key baseURL : string) :
  ((∃ config, handleCreateModelConfigManifest name provider model secret
                key baseURL = Manifest config)
   ↔ name ≠ "" ∧ model ≠ "" ∧ secret ≠ ""
     ∧ provider ∈ ["OpenAI"; "AzureOpenAI"; "Anthropic"; "Gemini"; "Ollama";
                   "Custom"])
  ∧ (∀ config,
       handleCreateModelConfigManifest name provider model secret key
         baseURL = Manifest config →
       types.Name config = name ∧ types.Namespace config = "kagent"
       ∧ types.Kind config = "ModelConfig"
       ∧ types.Provider (types.Spec config) = provider
       ∧ types.Model (types.Spec config) = model
       ∧ types.APIKeySecret (types.Spec config) = secret
       ∧ types.APIKeySecretKey (types.Spec config) ≠ ""
       ∧ (key ≠ "" → types.APIKeySecretKey (types.Spec config) = key)).
Proof.
  unfold handleCreateModelConfigManifest. rewrite validProviders_lookup.
  split.
  - split.
    + intros [config Hconfig].
      repeat case_bool_decide; simpl in Hconfig; try discriminate;
        repeat split; assumption.
    + intros (Hname & Hmodel & Hsecret & Hprovider).
      assert (Hp : provider ≠ "").
      { intros ->. revert Hprovider. literal_not_elem. }
      rewrite (bool_decide_eq_false_2 (name = "")),
        (bool_decide_eq_false_2 (provider = "")),
        (bool_decide_eq_false_2 (model = "")),
        (bool_decide_eq_false_2 (secret = "")) by assumption.
      rewrite bool_decide_eq_true_2 by exact Hprovider.
      simpl. eexists. reflexivity.
  - intros config Hconfig.
    destruct (bool_decide (name = "") || bool_decide (provider = "")
              || bool_decide (model = "") || bool_decide (secret = ""));
      [discriminate |].
    destruct (negb (bool_decide (provider ∈ _))); [discriminate |].
    injection Hconfig as <-. simpl.
    repeat split; repeat case_bool_decide; try discriminate; congruence.
Qed.

(** ** The comment headers *)

Lemma scanComments_app (p : headers.Position) (a b : string) :
  headers.scanComments p (a +:+ b) =
    headers.scanComments p a ≫= λ p', headers.scanComments p' b.
Proof.
  revert p. induction a as [| x a IH]; intros p; [reflexivity |].
  change (String x a +:+ b) with (String x (a +:+ b)).
  cbn [headers.scanComments].
  destruct (Ascii.eqb x (Ascii.ascii_of_nat 10)); [apply IH |].
  destruct p; [| apply IH].
  destruct (Ascii.eqb x (Ascii.ascii_of_nat 35)); [apply IH | reflexivity].
Qed.

(** Printable text behind a [#] stays inside the comment. *)
Lemma scanComments_printable (s : string) :
  headers.printable s = true →
  headers.scanComments headers.InComment s = Some headers.InComment.
Proof.
  induction s as [| x s IH]; [reflexivity |].
  cbn [headers.printable headers.scanComments].
  intros [[Hlow _]%andb_prop Hrest]%andb_prop.
  destruct (Ascii.eqb_spec x (Ascii.ascii_of_nat 10)) as [-> | _];
    [discriminate Hlow | exact (IH Hrest)].
Qed.

Ltac scan_literal :=
  match goal with
  | |- context [headers.scanComments ?p (?a +:+ ?b)] =>
      rewrite (scanComments_app p a b);
      let v := eval vm_compute in (headers.scanComments p a) in
      change (headers.scanComments p a) with v;
      cbn [mbind option_bind]
  end.

(** With printable arguments the header stays a comment. *)
Lemma modelConfigHeader_commentOnly (secret key : string) :
  headers.printable secret = true → headers.printable key = true →
  headers.commentOnly (headers.modelConfigHeader secret key) = true.
Proof.
  intros Hsecret Hkey.
  unfold headers.commentOnly, headers.modelConfigHeader, rendering.newline.
  do 3 scan_literal.
  rewrite (scanComments_app _ secret), (scanComments_printable secret Hsecret).
  cbn [mbind option_bind].
  scan_literal.
  rewrite (scanComments_app _ key), (scanComments_printable key Hkey).
  cbn [mbind option_bind].
  do 4 scan_literal.
  vm_compute. reflexivity.
Qed.

Lemma remoteServerHeader_commentOnly (url protocol : string) :
  headers.printable url = true → headers.printable protocol = true →
  headers.commentOnly (headers.remoteServerHeader url protocol) = true.
Proof.
  intros Hurl Hprotocol.
  unfold headers.commentOnly, headers.remoteServerHeader, rendering.newline.
  do 3 scan_literal.
  rewrite (scanComments_app _ url), (scanComments_printable url Hurl).
  cbn [mbind option_bind].
  scan_literal.
  rewrite (scanComments_app _ protocol),
    (scanComments_printable protocol Hprotocol).
  cbn [mbind option_bind].
  do 4 scan_literal.
  vm_compute. reflexivity.
Qed.

(** The arguments reach the header as they are: a line break in the
    secret, or in the url, ends the comment, and what follows it is read
    as part of the manifest. *)
Example modelConfigHeader_line_break :
  headers.commentOnly
    (headers.modelConfigHeader ("a" +:+ rendering.newline +:+ "b")
       "API_KEY") = false.
Proof. vm_compute. reflexivity. Qed.

Example remoteServerHeader_line_break :
  headers.commentOnly
    (headers.remoteServerHeader ("http://a" +:+ rendering.newline +:+ "b")
       "SSE") = false.
Proof. vm_compute. reflexivity. Qed.

Section Generated.
Context {S : Type} {dyn : DynamicInterface S} {json : JSONDecoder}
  {args : ArgumentDecoder}.


(** ** create_agent_manifest *)


(** ** create_mcp_server_manifest *)

(** X22.  The generator accepts its arguments exactly when the name is given
    and either the type is [MCPServer] with an image or the type is
    [RemoteMCPServer] with a url; the resource it prints is of the
    requested kind. *)
Theorem create_mcp_server_accepts
    (name serverType description image command argsJSON : string)
    (portFloat : Qcanon.Qc) (url protocol timeout : string) :
  ((∃ m, handleCreateMCPServerManifest name serverType description image
           command argsJSON portFloat url protocol timeout = Manifest m)
   ↔ name ≠ ""
     ∧ (serverType = "MCPServer" ∧ image ≠ ""
        ∨ serverType = "RemoteMCPServer" ∧ url ≠ ""))
  ∧ (∀ server,
       handleCreateMCPServerManifest name serverType description image
         command argsJSON portFloat url protocol timeout =
         Manifest (LocalServer server) →
       serverType = "MCPServer" ∧ servertypes.Kind server = "MCPServer"
       ∧ servertypes.Name server = name)
  ∧ (∀ server,
       handleCreateMCPServerManifest name serverType description image
         command argsJSON portFloat url protocol timeout =
         Manifest (RemoteServer server) →
       serverType = "RemoteMCPServer"
       ∧ servertypes.RemoteKind server = "RemoteMCPServer"
       ∧ servertypes.RemoteName server = name).
Proof.
  unfold handleCreateMCPServerManifest, createMCPServerManifest,
    createRemoteMCPServerManifest.
  split; [split |].
  - intros [m Hm].
    repeat case_bool_decide; simpl in Hm; try discriminate;
      split; try assumption; tauto.
  - intros (Hname & [[-> Himage] | [-> Hurl]]);
      rewrite (bool_decide_eq_false_2 (name = "")) by exact Hname; simpl.
    + rewrite (bool_decide_eq_false_2 (image = "")) by exact Himage.
      eexists. reflexivity.
    + rewrite (bool_decide_eq_false_2 (url = "")) by exact Hurl.
      eexists. reflexivity.
  - split; intros server Hm;
      repeat case_bool_decide; simpl in Hm; try discriminate;
      injection Hm as <-; repeat split; assumption.
Qed.



End Generated.

(** * The text of a validation result *)

Import rendering.

Lemma string_append_assoc (a b c : string) :
  (a +:+ b) +:+ c = a +:+ (b +:+ c).
Proof.
  induction a as [| x a IH]; [reflexivity |].
  change (String x ((a +:+ b) +:+ c) = String x (a +:+ (b +:+ c))).
  f_equal. exact IH.
Qed.

Lemma string_append_empty (a : string) : a +:+ "" = a.
Proof.
  induction a as [| x a IH]; [reflexivity |].
  change (String x (a +:+ "") = String x a). f_equal. exact IH.
Qed.

(** The loop over the issues: the lines are appended in order and the
    flag is raised by an error and never lowered. *)
Lemma renderIssues_loop (issues : list ValidationIssue) (result : string)
    (hasErrors : bool) :
  foldl (λ '(result, hasErrors) issue,
           (result +:+ issueLine issue,
            if bool_decide (Severity issue = "error") then true
            else hasErrors))
    (result, hasErrors) issues =
    (result +:+ foldr (λ issue rest, issueLine issue +:+ rest) "" issues,
     hasErrors || existsb isError issues).
Proof.
  revert result hasErrors.
  induction issues as [| issue issues IH]; intros result hasErrors;
    cbn [foldl foldr existsb].
  - by rewrite string_append_empty, orb_false_r.
  - rewrite IH, string_append_assoc. unfold isError.
    destruct (bool_decide (Severity issue = "error")), hasErrors;
      reflexivity.
Qed.

(** X25.  The text of a validation result: the pass line for an empty issue
    list; otherwise the header, one line per issue in the order of the
    list, and a verdict that says the manifest should not be applied
    exactly when some issue has severity [error]. *)
Theorem renderIssues_verdict (issues : list ValidationIssue) :
  renderIssues issues =
    if bool_decide (issues = []) then passedText
    else
      "Validation Results:" +:+ newline +:+ newline
      +:+ foldr (λ issue rest, issueLine issue +:+ rest) "" issues
      +:+ newline
      +:+ (if existsb isError issues then errorsVerdict
           else warningsVerdict).
Proof.
  unfold renderIssues. destruct issues as [| issue issues]; [reflexivity |].
  rewrite (bool_decide_eq_false_2 (length (issue :: issues) = 0))
    by discriminate.
  rewrite (bool_decide_eq_false_2 (issue :: issues = [])) by discriminate.
  rewrite renderIssues_loop. cbn [orb].
  destruct (existsb isError (issue :: issues));
    rewrite !string_append_assoc; reflexivity.
Qed.

(** * The further properties on the samples *)

Import doubles.

Lemma agent_error_free_witness :
  filter isError
    (handleValidateManifest (dyn := fake.cluster) (json := fake.decoder)
       samples.ts samples.agentX true samples.emptyCluster) = [].
Proof.
  apply (agent_error_free (dyn := fake.cluster) (json := fake.decoder)
           samples.ts samples.agentX true samples.emptyCluster);
    [vm_compute; reflexivity |].
  repeat split; vm_compute; discriminate.
Defined.

Lemma validateAgent_not_declarative_witness :
  validateAgent (dyn := fake.cluster) (json := fake.decoder) samples.ts
    (samples.agentManifest "kagent") true samples.emptyCluster = [].
Proof.
  rewrite (validateAgent_not_declarative (dyn := fake.cluster)
             (json := fake.decoder) samples.ts (samples.agentManifest "kagent")
             true samples.emptyCluster);
    [vm_compute; reflexivity | vm_compute; discriminate ..].
Defined.

Lemma apply_unknown_kind_witness :
  ApplyRecorded (dyn := fake.cluster) (k8sClient samples.ts) samples.widget
    false samples.emptyCluster =
    (Err (Errorf "unknown kind: Widget" None), (samples.emptyCluster, [])).
Proof.
  apply (proj1 (apply_unknown_kind (dyn := fake.cluster) (k8sClient samples.ts)
                  samples.widget false samples.emptyCluster)).
  replace (GetKind samples.widget) with "Widget" by (vm_compute; reflexivity).
  unfold facts.knownKinds. literal_not_elem.
Defined.

Lemma apply_submits_manifest_witness :
  frames.agreeOutsideMetadata ["namespace"; "resourceVersion"]
    (samples.agentManifest "kagent") samples.agentNoNamespace.
Proof.
  apply (apply_submits_manifest (dyn := fake.cluster) (k8sClient samples.ts)
           samples.agentNoNamespace false samples.emptyCluster
           (CreateCall AgentGVR "kagent" (samples.agentManifest "kagent")
              {| createDryRun := [] |})).
  replace (ApplyRecorded (dyn := fake.cluster) (k8sClient samples.ts)
             samples.agentNoNamespace false samples.emptyCluster).2.2
    with [CreateCall AgentGVR "kagent" (samples.agentManifest "kagent")
            {| createDryRun := [] |}]
    by (vm_compute; reflexivity).
  apply list_elem_of_here.
Defined.

Lemma apply_outcome_identity_witness :
  (Apply (dyn := fake.cluster) (k8sClient samples.ts) samples.agentNoNamespace
     true (samples.clusterWith "kagent")).1 =
    OK {| Action := "updated"; Kind := "Agent"; Name := "x";
          Namespace := "kagent"; DryRun := true |}
  ∧ "kagent" =
      if decide (GetNamespace samples.agentNoNamespace = "")
      then namespace (k8sClient samples.ts)
      else GetNamespace samples.agentNoNamespace.
Proof.
  assert (Hrun : (Apply (dyn := fake.cluster) (k8sClient samples.ts)
                    samples.agentNoNamespace true
                    (samples.clusterWith "kagent")).1 =
                 OK {| Action := "updated"; Kind := "Agent"; Name := "x";
                       Namespace := "kagent"; DryRun := true |})
    by (vm_compute; reflexivity).
  split; [exact Hrun |].
  destruct (apply_outcome_identity (dyn := fake.cluster)
              (k8sClient samples.ts) samples.agentNoNamespace true
              (samples.clusterWith "kagent") _ Hrun)
    as (_ & _ & _ & _ & _ & Hns).
  apply Hns. vm_compute. discriminate.
Defined.




Lemma Delete_resolves_kind_witness :
  Delete (del := deleter) (k8sClient samples.ts)
    "Widget" "w" false (samples.clusterWith "kagent") =
    (Some (Errorf "unknown kind: Widget" None), samples.clusterWith "kagent").
Proof.
  apply (proj1 (Delete_resolves_kind (del := deleter)
                  (k8sClient samples.ts) "Widget" "w" false
                  (samples.clusterWith "kagent"))).
  unfold facts.knownKinds. literal_not_elem.
Defined.

Lemma handleDeleteAgent_guarded_witness :
  handleDeleteAgent (dyn := fake.cluster) (del := deleter)
    (json := agentDecoder) samples.ts "x" true (samples.clusterWith "kagent") =
    (DryRunPreview "x" "kagent" "demo agent", samples.clusterWith "kagent")
  ∧ (handleDeleteAgent (dyn := fake.cluster) (del := deleter)
       (json := agentDecoder) samples.ts "x" false
       (samples.clusterWith "kagent")).2 = ∅.
Proof.
  destruct (handleDeleteAgent_guarded (dyn := fake.cluster) (del := deleter)
              (json := agentDecoder) samples.ts "x" true
              (samples.clusterWith "kagent")) as [_ Hdry].
  destruct (Hdry eq_refl) as [Hsame _].
  split; [| vm_compute; reflexivity].
  apply injective_projections; [vm_compute; reflexivity | exact Hsame].
Defined.

Lemma create_model_config_accepts_witness :
  ∃ config,
    handleCreateModelConfigManifest "mc" "Anthropic" "claude" "anthropic-key"
      "" "" = Manifest config
    ∧ types.APIKeySecretKey (types.Spec config) = "ANTHROPIC_API_KEY".
Proof.
  destruct (create_model_config_accepts "mc" "Anthropic" "claude"
              "anthropic-key" "" "") as [[_ Haccept] _].
  destruct Haccept as [config Hconfig].
  { repeat split; try discriminate. literal_elem. }
  exists config. split; [exact Hconfig |].
  vm_compute in Hconfig. injection Hconfig as <-. reflexivity.
Defined.



Lemma create_mcp_server_accepts_witness :
  ∃ m,
    handleCreateMCPServerManifest (args := argumentDecoder) "files"
      "RemoteMCPServer" "" "" "" "" (Qcanon.Q2Qc (QArith_base.inject_Z 0))
      "ftp://files" "" "" = Manifest m.
Proof.
  apply (proj1 (create_mcp_server_accepts (args := argumentDecoder) "files"
                  "RemoteMCPServer" "" "" "" ""
                  (Qcanon.Q2Qc (QArith_base.inject_Z 0)) "ftp://files" "" "")).
  split; [discriminate | right; split; [reflexivity | discriminate]].
Defined.


